(** * Prerequisite rules: a model of [prerequisites.py]

    [apply_prerequisites(res, df)] reads a records table [res] and writes one
    0/1 flag column per catalog subject into the roster [df].  The tables are
    pandas data frames; the model keeps them column-oriented, as the code
    uses them: a frame is an index length and an ordered list of named
    columns, a column (a pandas Series) is the list of its cells.

    Cells follow Python object semantics: a cell is a string, an integer, a
    boolean or a missing value (NaN / None).  Floating-point cells are outside
    the model. *)

From Stdlib Require Import List String ZArith Bool Lia Permutation.
Import ListNotations.
Local Open Scope string_scope.
Local Open Scope Z_scope.

(** ** Cells, series and frames *)

Inductive value : Type :=
| VStr (s : string)
| VInt (n : Z)
| VBool (b : bool)
| VNaN.

Definition Series : Type := list value.
Definition Mask : Type := list bool.

Record DataFrame : Type := mkDF {
  nrows : nat;                            (* len(df.index) *)
  columns : list (string * Series)        (* columns, in order *)
}.

(** Every column is aligned to the frame's index and names are unique. *)
Definition wf (d : DataFrame) : Prop :=
  NoDup (map fst (columns d)) /\
  Forall (fun c => List.length (snd c) = nrows d) (columns d).

Fixpoint assoc (c : string) (l : list (string * Series)) : option Series :=
  match l with
  | [] => None
  | (k, s) :: t => if String.eqb k c then Some s else assoc c t
  end.

(** [d[c]] when the column exists. *)
Definition getitem (d : DataFrame) (c : string) : option Series :=
  assoc c (columns d).

(** [c in d] *)
Definition has_col (d : DataFrame) (c : string) : bool :=
  match getitem d c with Some _ => true | None => false end.

(** [d[c] = s]: an existing column is overwritten where it stands, a new one
    is appended after the last column. *)
Fixpoint assign (c : string) (s : Series) (l : list (string * Series))
  : list (string * Series) :=
  match l with
  | [] => [(c, s)]
  | (k, v) :: t =>
      if String.eqb k c then (k, s) :: t else (k, v) :: assign c s t
  end.

Definition setitem (d : DataFrame) (c : string) (s : Series) : DataFrame :=
  mkDF (nrows d) (assign c s (columns d)).

(** The frame without column [c] (used to compare runs with and without an
    optional column). *)
Definition drop_column (c : string) (d : DataFrame) : DataFrame :=
  mkDF (nrows d)
       (filter (fun kv => negb (String.eqb (fst kv) c)) (columns d)).

(** ** Element-wise operations *)

(** Python's [==] on two cells: [bool] is a subtype of [int], a missing value
    is equal to nothing. *)
Definition py_eq (a b : value) : bool :=
  match a, b with
  | VStr x, VStr y => String.eqb x y
  | VInt x, VInt y => Z.eqb x y
  | VBool x, VBool y => Bool.eqb x y
  | VBool x, VInt y => Z.eqb (Z.b2z x) y
  | VInt x, VBool y => Z.eqb x (Z.b2z y)
  | _, _ => false
  end.

(** [s == c] and [s != c] against a scalar. *)
Definition eq_scalar (s : Series) (c : value) : Mask :=
  map (fun v => py_eq v c) s.

Definition ne_scalar (s : Series) (c : value) : Mask :=
  map (fun v => negb (py_eq v c)) s.

(** Membership as [isin] and [unique] see it: Python equality, except that
    missing values match one another. *)
Definition same_key (a b : value) : bool :=
  match a, b with
  | VNaN, VNaN => true
  | _, _ => py_eq a b
  end.

Definition member (v : value) (values : list value) : bool :=
  existsb (same_key v) values.

(** [s.isin(values)] *)
Definition isin (s : Series) (values : list value) : Mask :=
  map (fun v => member v values) s.

Fixpoint zip_with {A B C} (f : A -> B -> C) (a : list A) (b : list B)
  : list C :=
  match a, b with
  | x :: a', y :: b' => f x y :: zip_with f a' b'
  | _, _ => []
  end.

(** [a & b] and [a | b] on masks over the same index. *)
Definition mask_and (a b : Mask) : Mask := zip_with andb a b.
Definition mask_or (a b : Mask) : Mask := zip_with orb a b.

Declare Scope mask_scope.
Delimit Scope mask_scope with mask.
Infix "&&&" := mask_and (at level 40, left associativity) : mask_scope.
Infix "|||" := mask_or (at level 50, left associativity) : mask_scope.

(** [s.loc[mask]]: the cells of the rows where the mask holds. *)
Fixpoint loc (mask : Mask) (s : Series) : Series :=
  match mask, s with
  | b :: m, v :: t => if b then v :: loc m t else loc m t
  | _, _ => []
  end.

(** [s.unique()]: first occurrences, in order. *)
Fixpoint unique_from (seen : list value) (s : Series) : list value :=
  match s with
  | [] => []
  | v :: t =>
      if member v seen then unique_from seen t
      else v :: unique_from (v :: seen) t
  end.

Definition unique (s : Series) : list value := unique_from [] s.

(** [mask.astype(int)] *)
Definition astype_int (m : Mask) : Series :=
  map (fun b : bool => VInt (Z.b2z b)) m.

(** ** The roster as mutable state, [KeyError] as failure *)

Inductive exn : Type :=
| KeyError (key : string).

(** A computation runs on the roster, leaves it in some state and either
    raises or returns. *)
Definition M (A : Type) : Type := DataFrame -> DataFrame * (exn + A).

Definition ret {A} (a : A) : M A := fun d => (d, inr a).

Definition raise {A} (e : exn) : M A := fun d => (d, inl e).

Definition bind {A B} (m : M A) (k : A -> M B) : M B :=
  fun d =>
    match m d with
    | (d', inr a) => k a d'
    | (d', inl e) => (d', inl e)
    end.

Declare Scope py_scope.
Delimit Scope py_scope with py.
Notation "x <- m ;; k" := (bind m (fun x => k))
  (at level 100, m at next level, right associativity) : py_scope.
Notation "m ;; k" := (bind m (fun _ => k))
  (at level 100, right associativity) : py_scope.

(** [res[c]], read-only: the roster is not touched. *)
Definition col_of (res : DataFrame) (c : string) : M Series :=
  match getitem res c with
  | Some s => ret s
  | None => raise (KeyError c)
  end.

(** [df[c]] *)
Definition df_get (c : string) : M Series :=
  fun d =>
    match getitem d c with
    | Some s => (d, inr s)
    | None => (d, inl (KeyError c))
    end.

(** [df[c] = s] *)
Definition df_set (c : string) (s : Series) : M unit :=
  fun d => (setitem d c s, inr tt).

(** [df[c] = v] for a scalar, broadcast over the index. *)
Definition df_set_scalar (c : string) (v : value) : M unit :=
  fun d => (setitem d c (repeat v (nrows d)), inr tt).

(** [return df]: the roster itself is handed back. *)
Definition return_df : M DataFrame := fun d => (d, inr d).

(** ** The helpers of [apply_prerequisites] *)

(** [sget(col, default)], lines 18-23. *)
Definition sget (res : DataFrame) (col : string) (default : value) : Series :=
  match getitem res col with
  | Some s => s
  | None => repeat default (nrows res)
  end.

(** [set_flag(mask, colname)], lines 25-28. *)
Definition set_flag (res : DataFrame) (mask : Mask) (colname : string)
  : M unit :=
  (stu <- col_of res "StuID" ;;
   let valid_students := unique (loc mask stu) in
   ids <- df_get "Student ID" ;;
   df_set colname (astype_int (isin ids valid_students)))%py.

(** ** The rule catalog *)

(** The body of [apply_prerequisites] after the base masks is a straight
    line of flag writes: calls of [set_flag], and one direct assignment of
    the scalar 0 (line 151). *)
Inductive stmt : Type :=
| SetFlag (mask : Mask) (colname : string)      (* set_flag(mask, colname) *)
| SetZero (colname : string).                   (* df[colname] = 0 *)

Definition target (st : stmt) : string :=
  match st with
  | SetFlag _ c => c
  | SetZero c => c
  end.

Definition run_stmt (res : DataFrame) (st : stmt) : M unit :=
  match st with
  | SetFlag mask c => set_flag res mask c
  | SetZero c => df_set_scalar c (VInt 0)
  end.

Fixpoint run_all (res : DataFrame) (body : list stmt) : M unit :=
  match body with
  | [] => ret tt
  | st :: rest => (run_stmt res st ;; run_all res rest)%py
  end.

(** The empty string, the marker of a field that is present but not filled. *)
Definition blank : value := VStr EmptyString.

(** [s.isin([...])] against a list of grade strings. *)
Definition isin_str (s : Series) (grades : list string) : Mask :=
  isin s (map VStr grades).

(** [pd.Series(False, index=res.index)] *)
Definition all_false (res : DataFrame) : Mask := repeat false (nrows res).

(** Lines 232-236: the loop over the three Unit 1-2 English columns; a column
    that is not in [res] is skipped. *)
Definition any_present_filled (res : DataFrame) (cols : list string) : Mask :=
  fold_left
    (fun mask col =>
       match getitem res col with
       | Some s => mask_or mask (ne_scalar s blank)
       | None => mask
       end)
    cols (all_false res).

Section Rules.

Local Open Scope mask_scope.

Variable res : DataFrame.
(** [res['CG']] and [res['Y']], read at lines 33 and 40. *)
Variables CG Y : Series.

(** [sget(col)]: every call site leaves the default at [False]. *)
Definition opt (col : string) : Series := sget res col (VBool false).

Local Notation "s '=='' c" := (eq_scalar s c) (at level 30, no associativity).
Local Notation "s '!='' c" := (ne_scalar s c) (at level 30, no associativity).

(** Base masks, lines 33-46. *)
Definition new5 := isin_str CG ["N5"].
Definition new4 := isin_str CG ["N4"; "N5"].
Definition new3 := isin_str CG ["N3"; "N4"; "N5"].
Definition new := isin_str CG ["N2"; "N3"; "N4"; "N5"].
Definition cgtop3 := isin_str CG ["B+"; "A"; "A+"].
Definition cgtop4 := isin_str CG ["B"; "B+"; "A"; "A+"].

Definition y6 := Y ==' VInt 6.
Definition y7 := Y ==' VInt 7.
Definition y8 := Y ==' VInt 8.
Definition y9 := Y ==' VInt 9.
Definition y10 := Y ==' VInt 10.
Definition y11 := Y ==' VInt 11.
Definition y12 := Y ==' VInt 12.

(** Lines 48-50. *)
Definition early_VCE :=
  y9 &&& (isin_str CG ["D+"; "C"; "C+"; "B"; "B+"; "A"; "A+"] ||| new3).
Definition early_VCE_mid :=
  y9 &&& (isin_str CG ["B"; "B+"; "A"; "A+"] ||| new5).
Definition early_VCE_high :=
  y9 &&& (isin_str CG ["A"; "A+"] ||| new5).

(** Lines 52-68. *)
Definition art_high :=
  y9 &&& cgtop3 &&&
  (isin_str (opt "ARDE") ["A"; "A+"] ||| isin_str (opt "DRPA") ["A"; "A+"] |||
   isin_str (opt "GRDE") ["A"; "A+"] ||| isin_str (opt "PHO") ["A"; "A+"] |||
   isin_str (opt "SCME") ["A"; "A+"] ||| isin_str (opt "SCPR") ["A"; "A+"]).
Definition hum_high :=
  y9 &&& cgtop3 &&&
  (isin_str (opt "HIS1") ["A"; "A+"] ||| isin_str (opt "RV3") ["A"; "A+"] |||
   isin_str (opt "GEO1") ["A"; "A+"] ||| isin_str (opt "EB") ["A"; "A+"]).
Definition mat_high :=
  y9 &&& cgtop3 &&& (isin_str (opt "AMAT1") ["A+"] ||| new5).
Definition sci_high :=
  y9 &&& cgtop3 &&& (isin_str (opt "RSC1") ["A"; "A+"] ||| new5).
Definition pe_high :=
  y9 &&& cgtop3 &&&
  (isin_str (opt "HPE3") ["A"; "A+"] |||
   isin_str (opt "DE") ["A"; "A+"] |||
   isin_str (opt "RFIT") ["A"; "A+"]).

(** Lines 70-80. *)
Definition mat_high10 :=
  y10 &&&
  (isin_str (opt "IMAT2") ["A"; "A+"] &&& (opt "IMAT3" ==' VStr "S2") |||
   isin_str (opt "AMAT2") ["B+"; "A"; "A+"]).
Definition mat_mid10 :=
  y10 &&&
  (isin_str (opt "IMAT2") ["B+"; "A"; "A+"] &&& (opt "IMAT3" ==' VStr "S2") |||
   isin_str (opt "AMAT2") ["B"; "B+"; "A"; "A+"]).
Definition sci_mid10 :=
  y10 &&& (isin_str (opt "SCI4") ["B"; "B+"; "A"; "A+"] |||
           isin_str (opt "RSC1") ["B"; "B+"; "A"; "A+"]).
Definition sci_minmid10 :=
  y10 &&& (isin_str (opt "SCI4") ["C+"; "B"; "B+"; "A"; "A+"] |||
           isin_str (opt "RSC1") ["C+"; "B"; "B+"; "A"; "A+"]).
Definition sci_min10 :=
  y10 &&& (isin_str (opt "SCI4") ["C"; "C+"; "B"; "B+"; "A"; "A+"] |||
           isin_str (opt "RSC1") ["C"; "C+"; "B"; "B+"; "A"; "A+"]).

(** Year 7, lines 85-95. *)
Definition year7 : list stmt :=
  map (SetFlag y6)
    ["Design and Technologies"; "Digital Technologies"; "Drama 1"; "English 1";
     "Health and Physical Education 1"; "Humanities 1"; "Mathematics 1";
     "Music 1"; "Religion and Values 1"; "Science 1"; "Visual Arts 1"] ++
  [ SetFlag (y6 &&& (isin_str (opt "ARA")
                       ["C5"; "C4"; "C3"; "C2"; "C1"; "B2"; "B1"; "A"] ||| new))
      "Arabic 1";
    SetFlag ((y6 ||| y7 ||| y8) &&& new) "Turkish 1";
    SetFlag (y6 &&& (opt "TUR" !=' blank) ||| y7 &&& (opt "TUR1" !=' blank) |||
             y6 &&& isin_str (opt "BTUR") ["A"; "B1"; "B2"])
      "Turkish 2";
    SetFlag (y6 &&& (opt "ATUR" !=' blank)) "Turkish 5" ].

(** Year 8, lines 100-109. *)
Definition year8 : list stmt :=
  map (SetFlag y7)
    ["Drama 2"; "English 2"; "Food Technology";
     "Health and Physical Education 2"; "Humanities 2"; "Mathematics 2";
     "Media"; "Music 2"; "Programming"; "Religion and Values 2"; "Robotics 1";
     "Science 2"; "Textiles"; "Visual Arts 2"] ++
  [ SetFlag ((opt "ARA1" !=' blank) ||| y7 &&& new) "Arabic 2";
    SetFlag ((opt "TUR2" !=' blank) &&& (y7 ||| y8)) "Turkish 3";
    SetFlag ((opt "TUR5" !=' blank) &&& y7) "Turkish 6" ].

(** Line 149, the rule of 'Social Values in Film' when its column exists. *)
Definition svf_mask : Mask := (opt "SVF" ==' blank) &&& (y8 ||| y9).

(** Year 9, lines 114-157. *)
Definition year9 : list stmt :=
  map (SetFlag y8)
    ["English 3"; "Health and Physical Education 3"; "History 1";
     "Intermediate Mathematics 1"; "Religion and Values 3"; "Science 3"] ++
  [ SetFlag (y8 &&& (isin_str (opt "MAT2") ["A"; "A+"] ||| new5))
      "Advanced Mathematics 1";
    SetFlag ((opt "ARA2" !=' blank) ||| y8 &&& new) "Arabic 3";
    SetFlag ((opt "ARDE" ==' blank) &&& (y8 ||| y9)) "Architecture and Design";
    SetFlag (y8 ||| y9) "Behavioural Science";
    SetFlag ((opt "CC" ==' blank) &&& (y8 ||| y9)) "Civics and Citizenship";
    SetFlag (y8 ||| y9) "Debating and Public Speaking";
    SetFlag (y8 ||| y9) "Drama 3";
    SetFlag ((opt "DRPA" ==' blank) &&& (y8 ||| y9)) "Drawing and Painting";
    SetFlag (y8 ||| y9) "Duke of Edinburgh";
    SetFlag ((opt "EB" ==' blank) &&& (y8 ||| y9)) "Economics and Business";
    SetFlag ((opt "FATT" ==' blank) &&& (y8 ||| y9))
      "Fashion and Textile Trends";
    SetFlag ((opt "FI" ==' blank) &&& (y8 ||| y9)) "Food and the Food Industry";
    SetFlag ((opt "GEO1" ==' blank) &&& (y8 ||| y9)) "Geography 1";
    SetFlag ((opt "GRDE" ==' blank) &&& (y8 ||| y9)) "Graphic Design";
    SetFlag ((opt "INN" ==' blank) &&& (y8 ||| y9)) "Innovation";
    SetFlag (y8 ||| y9) "Introduction to Artificial Intelligence";
    SetFlag (y8 ||| y9) "Music 3";
    SetFlag ((opt "PHO" ==' blank) &&& (y8 ||| y9)) "Photography";
    SetFlag ((opt "RFIT" ==' blank) &&& (y8 ||| y9) &&&
             (isin_str (opt "HPE2") ["C"; "C+"; "B"; "B+"; "A"; "A+"] |||
              isin_str (opt "HPE3") ["C"; "C+"; "B"; "B+"; "A"; "A+"] |||
              new5))
      "Recreational Fitness";
    SetFlag ((opt "RMAT" ==' blank) &&& (y8 ||| y9)) "Recreational Mathematics";
    SetFlag (y8 &&& (isin_str (opt "SCI2") ["B+"; "A"; "A+"] ||| new4) |||
             y9 &&& (isin_str (opt "SCI3") ["C+"; "B"; "B+"; "A"; "A+"] |||
                     new4))
      "Research Science 1";
    SetFlag (y8 &&& (isin_str (opt "SCI2") ["B+"; "A"; "A+"] ||| new4))
      "Research Science 2";
    SetFlag ((opt "ROB2" ==' blank) &&& (y8 ||| y9)) "Robotics 2";
    SetFlag ((opt "SCME" ==' blank) &&& (y8 ||| y9)) "Screen and Media";
    SetFlag ((opt "SCPR" ==' blank) &&& (y8 ||| y9))
      "Sculpture and Printmaking" ] ++
  (if has_col res "SVF"
   then [ SetFlag svf_mask "Social Values in Film" ]
   else [ SetZero "Social Values in Film" ]) ++
  [ SetFlag (y8 ||| y9) "Stagecraft and Production";
    SetFlag (y8 ||| y9) "Technology Start-Ups";
    SetFlag ((opt "TUR6" !=' blank) &&& y8) "Turkish 7";
    SetFlag ((opt "VS" ==' blank) &&& (y8 ||| y9)) "Volunteering Skills";
    SetFlag ((opt "WDCS" ==' blank) &&& (y8 ||| y9))
      "Web Design and Cyber Security" ].

(** Year 10, lines 162-171. *)
Definition year10 : list stmt :=
  map (SetFlag y9)
    ["Certificate II in Workplace Skills"; "English 4";
     "Health and Physical Education 4"; "History 2";
     "Intermediate Mathematics 2"; "Intermediate Mathematics 3";
     "Religion Studies"; "Science 4"] ++
  [ SetFlag (y9 &&& (isin_str (opt "ENG3") ["B"; "B+"; "A"; "A+"] &&& cgtop4 |||
                     new4))
      "Advanced English";
    SetFlag (y9 &&& (isin_str (opt "AMAT1") ["C"; "C+"; "B"; "B+"; "A"; "A+"] |||
                     isin_str (opt "IMAT1") ["A"; "A+"] ||| new5))
      "Advanced Mathematics 2";
    SetFlag (y9 &&& (isin_str (opt "AMAT1") ["C"; "C+"; "B"; "B+"; "A"; "A+"] |||
                     isin_str (opt "IMAT1") ["A"; "A+"] ||| new5))
      "Extended Mathematics" ].

(** Unit 1-2, lines 176-213. *)
Definition unit12 : list stmt :=
  map (SetFlag y10)
    ["Drama U12"; "English Language U12"; "English U12";
     "General Mathematics U12"; "Literature U12"; "VCE VET Business U12";
     "VCE VET Sport and Recreation U12"] ++
  [ SetFlag (y10 ||| early_VCE_high ||| art_high) "Art Creative Practice U12";
    SetFlag (y10 ||| early_VCE_high ||| art_high) "Theatre Studies U12";
    SetFlag (y10 ||| early_VCE_high ||| art_high)
      "Visual Communication Design U12";
    SetFlag (y10 ||| early_VCE_high ||| hum_high) "Economics U12";
    SetFlag (y10 ||| early_VCE_high ||| hum_high) "History U12";
    SetFlag (y10 ||| early_VCE_high ||| hum_high) "Legal Studies U12";
    SetFlag (y10 ||| early_VCE_high ||| hum_high) "Texts and Traditions U12";
    SetFlag (y10 ||| early_VCE_high ||| hum_high) "Politics U12";
    SetFlag (y10 ||| early_VCE_high ||| hum_high) "Sociology U12";
    SetFlag (y10 &&& (sci_mid10 ||| new4) ||| early_VCE_high &&& sci_high |||
             new5 &&& (y9 ||| y10))
      "Chemistry U12";
    SetFlag (y10 &&& (sci_minmid10 ||| new4) ||| early_VCE_high &&& sci_high |||
             new5 &&& (y9 ||| y10))
      "Physics U12";
    SetFlag ((opt "ACOMU12" ==' blank) &&& (y10 ||| early_VCE))
      "Applied Computing U12";
    SetFlag (y9 &&& cgtop4 &&& (isin_str (opt "SCI3") ["B+"; "A"; "A+"] |||
                                (opt "RSC1" !=' blank)) |||
             y9 &&& new4 ||| y10 &&& new4 |||
             y10 &&& sci_min10 &&& (opt "BIOU12" ==' blank))
      "Biology U12";
    SetFlag ((opt "BMU12" ==' blank) &&& (y10 ||| early_VCE))
      "Business Management U12";
    SetFlag ((opt "HHDU12" ==' blank) &&& (y10 ||| early_VCE))
      "Health and Human Development U12";
    SetFlag (y10 &&& (mat_mid10 ||| new4) ||| early_VCE_high &&& mat_high |||
             new5 &&& (y9 ||| y10))
      "Mathematical Methods U12";
    SetFlag (y10 ||| early_VCE_high ||| pe_high)
      "Outdoor and Environmental Studies U12";
    SetFlag (y10 ||| early_VCE_high ||| pe_high) "Physical Education U12";
    SetFlag (y10 ||| early_VCE_mid) "Product Design and Technologies U12";
    SetFlag (y9 &&& cgtop4 &&& (isin_str (opt "SCI3") ["B"; "B+"; "A"; "A+"] |||
                                (opt "RSC1" !=' blank)) |||
             y9 &&& new4 ||| y10 &&& new4 |||
             y10 &&& sci_min10 &&& (opt "PSYU12" ==' blank))
      "Psychology U12";
    SetFlag (y10 &&& (mat_high10 ||| new4) ||| new5 &&& y10)
      "Specialist Mathematics U12";
    SetFlag ((y9 ||| y10) &&& (opt "TUR7" !=' blank)) "Turkish U12" ].

(** Lines 232-236. *)
Definition mask_any_u12_english : Mask :=
  any_present_filled res ["ENGU12"; "ELANU12"; "LITU12"].

(** Unit 3-4, lines 220-253. *)
Definition unit34 : list stmt :=
  [ SetFlag (opt "ACPU12" !=' blank) "Art Creative Practice U34";
    SetFlag (opt "BIOU12" !=' blank) "Biology U34";
    SetFlag (opt "BMU12" !=' blank) "Business Management U34";
    SetFlag (opt "CHEU12" !=' blank) "Chemistry U34";
    SetFlag (opt "ACOMU12" !=' blank) "Data Analytics U34";
    SetFlag (opt "ACOMU12" !=' blank) "Software Development U34";
    SetFlag (opt "DRAU12" !=' blank) "Drama U34";
    SetFlag (opt "ECOU12" !=' blank) "Economics U34";
    SetFlag mask_any_u12_english "English U34";
    SetFlag mask_any_u12_english "English Language U34";
    SetFlag mask_any_u12_english "Literature U34";
    SetFlag ((opt "GMATU12" !=' blank) ||| (opt "MATMU12" !=' blank) |||
             mat_high10 ||| y10 &&& new4)
      "General Mathematics U34";
    SetFlag (opt "HHDU12" !=' blank) "Health and Human Development U34";
    SetFlag (opt "HISU12" !=' blank) "History U34";
    SetFlag (opt "LEGU12" !=' blank) "Legal Studies U34";
    SetFlag (opt "MATMU12" !=' blank) "Mathematical Methods U34";
    SetFlag (opt "PEU12" !=' blank) "Physical Education U34";
    SetFlag (opt "PHYU12" !=' blank) "Physics U34";
    SetFlag (opt "PSYU12" !=' blank) "Psychology U34";
    SetFlag ((opt "SMATU12" !=' blank) |||
             y11 &&& isin_str (opt "MATMU12") ["B+"; "A"; "A+"] |||
             y11 &&& new5)
      "Specialist Mathematics U34";
    SetFlag (opt "TURU12" !=' blank) "Turkish U34";
    SetFlag (opt "VBUSU12" !=' blank) "VCE VET Business U34";
    SetFlag (opt "VSRU12" !=' blank) "VCE VET Sport and Recreation U34";
    SetFlag (opt "VCDU12" !=' blank) "Visual Communication Design U34" ].

(** The statements from line 85 to line 253, in order. *)
Definition body : list stmt :=
  year7 ++ year8 ++ year9 ++ year10 ++ unit12 ++ unit34.

End Rules.

(** [apply_prerequisites(res, df)], lines 5-255.  The roster is the state;
    the value returned is the roster itself. *)
Definition apply_prerequisites (res : DataFrame) : M DataFrame :=
  (CG <- col_of res "CG" ;;
   Y <- col_of res "Y" ;;
   run_all res (body res CG Y) ;;
   return_df)%py.

(** The subject names written, in the order of the source. *)
Definition catalog : list string :=
  ["Design and Technologies"; "Digital Technologies"; "Drama 1"; "English 1";
   "Health and Physical Education 1"; "Humanities 1"; "Mathematics 1";
   "Music 1"; "Religion and Values 1"; "Science 1"; "Visual Arts 1";
   "Arabic 1"; "Turkish 1"; "Turkish 2"; "Turkish 5";
   "Drama 2"; "English 2"; "Food Technology";
   "Health and Physical Education 2"; "Humanities 2"; "Mathematics 2";
   "Media"; "Music 2"; "Programming"; "Religion and Values 2"; "Robotics 1";
   "Science 2"; "Textiles"; "Visual Arts 2";
   "Arabic 2"; "Turkish 3"; "Turkish 6";
   "English 3"; "Health and Physical Education 3"; "History 1";
   "Intermediate Mathematics 1"; "Religion and Values 3"; "Science 3";
   "Advanced Mathematics 1"; "Arabic 3"; "Architecture and Design";
   "Behavioural Science"; "Civics and Citizenship";
   "Debating and Public Speaking"; "Drama 3"; "Drawing and Painting";
   "Duke of Edinburgh"; "Economics and Business";
   "Fashion and Textile Trends"; "Food and the Food Industry"; "Geography 1";
   "Graphic Design"; "Innovation"; "Introduction to Artificial Intelligence";
   "Music 3"; "Photography"; "Recreational Fitness";
   "Recreational Mathematics"; "Research Science 1"; "Research Science 2";
   "Robotics 2"; "Screen and Media"; "Sculpture and Printmaking";
   "Social Values in Film"; "Stagecraft and Production";
   "Technology Start-Ups"; "Turkish 7"; "Volunteering Skills";
   "Web Design and Cyber Security";
   "Certificate II in Workplace Skills"; "English 4";
   "Health and Physical Education 4"; "History 2";
   "Intermediate Mathematics 2"; "Intermediate Mathematics 3";
   "Religion Studies"; "Science 4";
   "Advanced English"; "Advanced Mathematics 2"; "Extended Mathematics";
   "Drama U12"; "English Language U12"; "English U12";
   "General Mathematics U12"; "Literature U12"; "VCE VET Business U12";
   "VCE VET Sport and Recreation U12";
   "Art Creative Practice U12"; "Theatre Studies U12";
   "Visual Communication Design U12"; "Economics U12"; "History U12";
   "Legal Studies U12"; "Texts and Traditions U12"; "Politics U12";
   "Sociology U12"; "Chemistry U12"; "Physics U12"; "Applied Computing U12";
   "Biology U12"; "Business Management U12";
   "Health and Human Development U12"; "Mathematical Methods U12";
   "Outdoor and Environmental Studies U12"; "Physical Education U12";
   "Product Design and Technologies U12"; "Psychology U12";
   "Specialist Mathematics U12"; "Turkish U12";
   "Art Creative Practice U34"; "Biology U34"; "Business Management U34";
   "Chemistry U34"; "Data Analytics U34"; "Software Development U34";
   "Drama U34"; "Economics U34"; "English U34"; "English Language U34";
   "Literature U34"; "General Mathematics U34";
   "Health and Human Development U34"; "History U34"; "Legal Studies U34";
   "Mathematical Methods U34"; "Physical Education U34"; "Physics U34";
   "Psychology U34"; "Specialist Mathematics U34"; "Turkish U34";
   "VCE VET Business U34"; "VCE VET Sport and Recreation U34";
   "Visual Communication Design U34"].

(** ** What a run writes, in closed form *)

(** The column [set_flag] writes, given [res['StuID']] and
    [df['Student ID']]. *)
Definition flags_for (stu ids : Series) (mask : Mask) : Series :=
  astype_int (isin ids (unique (loc mask stu))).

Definition written (stu ids : Series) (n : nat) (st : stmt) : Series :=
  match st with
  | SetFlag mask _ => flags_for stu ids mask
  | SetZero _ => repeat (VInt 0) n
  end.

Definition write_all (stu ids : Series) (l : list stmt) (d : DataFrame)
  : DataFrame :=
  fold_left (fun d st => setitem d (target st) (written stu ids (nrows d) st))
            l d.

(** The per-row predicate of a statement; the forced zero of line 151 is the
    predicate that holds of no row. *)
Definition rule_mask (res : DataFrame) (st : stmt) : Mask :=
  match st with
  | SetFlag mask _ => mask
  | SetZero _ => all_false res
  end.

(** A statement that assigns 0 to everyone without consulting any row. *)
Definition forces_zero (st : stmt) : bool :=
  match st with
  | SetFlag _ _ => false
  | SetZero _ => true
  end.

(** The two cells name the same student for [isin]: both missing, or equal
    after reading a boolean as the integer it is. *)
Definition norm (v : value) : value :=
  match v with
  | VBool b => VInt (Z.b2z b)
  | _ => v
  end.

(** The columns the body cannot run without. *)
Definition required : list string := ["StuID"; "Y"; "CG"].

(** The optional columns named in each subject's rule (through [sget], or in
    the loop of lines 232-236); a subject that is not listed names none. *)
Definition reads_table : list (string * list string) :=
  [ ("Arabic 1", ["ARA"]);
    ("Turkish 2", ["TUR"; "TUR1"; "BTUR"]);
    ("Turkish 5", ["ATUR"]);
    ("Arabic 2", ["ARA1"]);
    ("Turkish 3", ["TUR2"]);
    ("Turkish 6", ["TUR5"]);
    ("Advanced Mathematics 1", ["MAT2"]);
    ("Arabic 3", ["ARA2"]);
    ("Architecture and Design", ["ARDE"]);
    ("Civics and Citizenship", ["CC"]);
    ("Drawing and Painting", ["DRPA"]);
    ("Economics and Business", ["EB"]);
    ("Fashion and Textile Trends", ["FATT"]);
    ("Food and the Food Industry", ["FI"]);
    ("Geography 1", ["GEO1"]);
    ("Graphic Design", ["GRDE"]);
    ("Innovation", ["INN"]);
    ("Photography", ["PHO"]);
    ("Recreational Fitness", ["RFIT"; "HPE2"; "HPE3"]);
    ("Recreational Mathematics", ["RMAT"]);
    ("Research Science 1", ["SCI2"; "SCI3"]);
    ("Research Science 2", ["SCI2"]);
    ("Robotics 2", ["ROB2"]);
    ("Screen and Media", ["SCME"]);
    ("Sculpture and Printmaking", ["SCPR"]);
    ("Social Values in Film", ["SVF"]);
    ("Turkish 7", ["TUR6"]);
    ("Volunteering Skills", ["VS"]);
    ("Web Design and Cyber Security", ["WDCS"]);
    ("Advanced English", ["ENG3"]);
    ("Advanced Mathematics 2", ["AMAT1"; "IMAT1"]);
    ("Extended Mathematics", ["AMAT1"; "IMAT1"]);
    ("Art Creative Practice U12",
      ["ARDE"; "DRPA"; "GRDE"; "PHO"; "SCME"; "SCPR"]);
    ("Theatre Studies U12", ["ARDE"; "DRPA"; "GRDE"; "PHO"; "SCME"; "SCPR"]);
    ("Visual Communication Design U12",
      ["ARDE"; "DRPA"; "GRDE"; "PHO"; "SCME"; "SCPR"]);
    ("Economics U12", ["HIS1"; "RV3"; "GEO1"; "EB"]);
    ("History U12", ["HIS1"; "RV3"; "GEO1"; "EB"]);
    ("Legal Studies U12", ["HIS1"; "RV3"; "GEO1"; "EB"]);
    ("Texts and Traditions U12", ["HIS1"; "RV3"; "GEO1"; "EB"]);
    ("Politics U12", ["HIS1"; "RV3"; "GEO1"; "EB"]);
    ("Sociology U12", ["HIS1"; "RV3"; "GEO1"; "EB"]);
    ("Chemistry U12", ["SCI4"; "RSC1"]);
    ("Physics U12", ["SCI4"; "RSC1"]);
    ("Applied Computing U12", ["ACOMU12"]);
    ("Biology U12", ["SCI3"; "RSC1"; "SCI4"; "BIOU12"]);
    ("Business Management U12", ["BMU12"]);
    ("Health and Human Development U12", ["HHDU12"]);
    ("Mathematical Methods U12", ["IMAT2"; "IMAT3"; "AMAT2"; "AMAT1"]);
    ("Outdoor and Environmental Studies U12", ["HPE3"; "DE"; "RFIT"]);
    ("Physical Education U12", ["HPE3"; "DE"; "RFIT"]);
    ("Psychology U12", ["SCI3"; "RSC1"; "SCI4"; "PSYU12"]);
    ("Specialist Mathematics U12", ["IMAT2"; "IMAT3"; "AMAT2"]);
    ("Turkish U12", ["TUR7"]);
    ("Art Creative Practice U34", ["ACPU12"]);
    ("Biology U34", ["BIOU12"]);
    ("Business Management U34", ["BMU12"]);
    ("Chemistry U34", ["CHEU12"]);
    ("Data Analytics U34", ["ACOMU12"]);
    ("Software Development U34", ["ACOMU12"]);
    ("Drama U34", ["DRAU12"]);
    ("Economics U34", ["ECOU12"]);
    ("English U34", ["ENGU12"; "ELANU12"; "LITU12"]);
    ("English Language U34", ["ENGU12"; "ELANU12"; "LITU12"]);
    ("Literature U34", ["ENGU12"; "ELANU12"; "LITU12"]);
    ("General Mathematics U34",
      ["GMATU12"; "MATMU12"; "IMAT2"; "IMAT3"; "AMAT2"]);
    ("Health and Human Development U34", ["HHDU12"]);
    ("History U34", ["HISU12"]);
    ("Legal Studies U34", ["LEGU12"]);
    ("Mathematical Methods U34", ["MATMU12"]);
    ("Physical Education U34", ["PEU12"]);
    ("Physics U34", ["PHYU12"]);
    ("Psychology U34", ["PSYU12"]);
    ("Specialist Mathematics U34", ["SMATU12"; "MATMU12"]);
    ("Turkish U34", ["TURU12"]);
    ("VCE VET Business U34", ["VBUSU12"]);
    ("VCE VET Sport and Recreation U34", ["VSRU12"]);
    ("Visual Communication Design U34", ["VCDU12"]) ].

Fixpoint reads_in (table : list (string * list string)) (subject : string)
  : list string :=
  match table with
  | [] => []
  | (k, cols) :: t => if String.eqb k subject then cols else reads_in t subject
  end.

Definition reads (subject : string) : list string :=
  reads_in reads_table subject.

Definition string_mem (s : string) (l : list string) : bool :=
  existsb (String.eqb s) l.

Fixpoint nodupb (l : list string) : bool :=
  match l with
  | [] => true
  | s :: t => negb (string_mem s t) && nodupb t
  end.

(** Two statements write the same column, and are the same statement unless
    the subject's rule names column [c]. *)
Definition agree_off (c : string) (a b : stmt) : Prop :=
  target a = target b /\ (~ In c (reads (target a)) -> a = b).

(** The statement of the body that writes a given subject. *)
Definition stmt_for (subject : string) (l : list stmt) : option stmt :=
  find (fun st => String.eqb (target st) subject) l.

(** The required column whose absence the run meets first: [res['CG']] at
    line 33, [res['Y']] at line 40, then [res['StuID']] and
    [df['Student ID']] inside the first [set_flag]. *)
Definition first_missing (res df : DataFrame) : option string :=
  if negb (has_col res "CG") then Some "CG"
  else if negb (has_col res "Y") then Some "Y"
  else if negb (has_col res "StuID") then Some "StuID"
  else if negb (has_col df "Student ID") then Some "Student ID"
  else None.

(** Every row that satisfies [m] satisfies [m']. *)
Definition mask_le (m m' : Mask) : Prop :=
  forall j, nth_error m j = Some true -> nth_error m' j = Some true.

(** The compulsory subjects of each year, written by the five loops over a
    plain year mask (lines 85-90, 100-105, 114-118, 162-167, 176-180): the
    year level tested and the subjects it opens. *)
Definition year_gates : list (Z * list string) :=
  [ (6, ["Design and Technologies"; "Digital Technologies"; "Drama 1";
         "English 1"; "Health and Physical Education 1"; "Humanities 1";
         "Mathematics 1"; "Music 1"; "Religion and Values 1"; "Science 1";
         "Visual Arts 1"]);
    (7, ["Drama 2"; "English 2"; "Food Technology";
         "Health and Physical Education 2"; "Humanities 2"; "Mathematics 2";
         "Media"; "Music 2"; "Programming"; "Religion and Values 2";
         "Robotics 1"; "Science 2"; "Textiles"; "Visual Arts 2"]);
    (8, ["English 3"; "Health and Physical Education 3"; "History 1";
         "Intermediate Mathematics 1"; "Religion and Values 3"; "Science 3"]);
    (9, ["Certificate II in Workplace Skills"; "English 4";
         "Health and Physical Education 4"; "History 2";
         "Intermediate Mathematics 2"; "Intermediate Mathematics 3";
         "Religion Studies"; "Science 4"]);
    (10, ["Drama U12"; "English Language U12"; "English U12";
          "General Mathematics U12"; "Literature U12"; "VCE VET Business U12";
          "VCE VET Sport and Recreation U12"]) ]%Z.

(** The year-9 electives whose whole rule is [y8 | y9] (lines 123-154). *)
Definition open_electives : list string :=
  ["Behavioural Science"; "Debating and Public Speaking"; "Drama 3";
   "Duke of Edinburgh"; "Introduction to Artificial Intelligence"; "Music 3";
   "Stagecraft and Production"; "Technology Start-Ups"].

(** Subjects written from one and the same mask expression (lines 170-171,
    182-184, 186-191, 205-206, 225-226). *)
Definition same_rule_groups : list (list string) :=
  [ ["Advanced Mathematics 2"; "Extended Mathematics"];
    ["Art Creative Practice U12"; "Theatre Studies U12";
     "Visual Communication Design U12"];
    ["Economics U12"; "History U12"; "Legal Studies U12";
     "Texts and Traditions U12"; "Politics U12"; "Sociology U12"];
    ["Outdoor and Environmental Studies U12"; "Physical Education U12"];
    ["Data Analytics U34"; "Software Development U34"] ].

(** Pairs of subjects of which the first has the narrower rule: the same
    expression with shorter grade lists or fewer alternatives (lines 141-142,
    193-194, 203 and 212). *)
Definition stricter_than : list (string * string) :=
  [ ("Research Science 2", "Research Science 1");
    ("Chemistry U12", "Physics U12");
    ("Specialist Mathematics U12", "Mathematical Methods U12") ].

(** The subjects beyond the plain year gates whose rule has an alternative
    that a year-9 record with composite grade N5 satisfies by itself
    ([new4], [new5] or [early_VCE_*] under [y9]). *)
Definition n5_year9_subjects : list string :=
  ["Research Science 1"; "Advanced English"; "Advanced Mathematics 2";
   "Extended Mathematics"; "Art Creative Practice U12"; "Theatre Studies U12";
   "Visual Communication Design U12"; "Economics U12"; "History U12";
   "Legal Studies U12"; "Texts and Traditions U12"; "Politics U12";
   "Sociology U12"; "Chemistry U12"; "Physics U12"; "Biology U12";
   "Mathematical Methods U12"; "Outdoor and Environmental Studies U12";
   "Physical Education U12"; "Product Design and Technologies U12";
   "Psychology U12"].

(** The Unit 3-4 subjects whose whole rule is [sget(col) != ''] (lines
    220-229 and 242-253), each with its Unit 1-2 marker column. *)
Definition u34_markers : list (string * string) :=
  [ ("Art Creative Practice U34", "ACPU12"); ("Biology U34", "BIOU12");
    ("Business Management U34", "BMU12"); ("Chemistry U34", "CHEU12");
    ("Data Analytics U34", "ACOMU12");
    ("Software Development U34", "ACOMU12");
    ("Drama U34", "DRAU12"); ("Economics U34", "ECOU12");
    ("Health and Human Development U34", "HHDU12");
    ("History U34", "HISU12"); ("Legal Studies U34", "LEGU12");
    ("Mathematical Methods U34", "MATMU12");
    ("Physical Education U34", "PEU12"); ("Physics U34", "PHYU12");
    ("Psychology U34", "PSYU12"); ("Turkish U34", "TURU12");
    ("VCE VET Business U34", "VBUSU12");
    ("VCE VET Sport and Recreation U34", "VSRU12");
    ("Visual Communication Design U34", "VCDU12") ].

(** The year-9 electives whose whole rule is [(sget(col) == '') & (y8 | y9)]
    (lines 122-157), each with the column that marks it as already taken. *)
Definition not_yet_taken_gates : list (string * string) :=
  [ ("Architecture and Design", "ARDE"); ("Civics and Citizenship", "CC");
    ("Drawing and Painting", "DRPA"); ("Economics and Business", "EB");
    ("Fashion and Textile Trends", "FATT");
    ("Food and the Food Industry", "FI"); ("Geography 1", "GEO1");
    ("Graphic Design", "GRDE"); ("Innovation", "INN");
    ("Photography", "PHO"); ("Recreational Mathematics", "RMAT");
    ("Robotics 2", "ROB2"); ("Screen and Media", "SCME");
    ("Sculpture and Printmaking", "SCPR"); ("Volunteering Skills", "VS");
    ("Web Design and Cyber Security", "WDCS") ].

(** ** Sample tables *)

(** One year-9 student on the new-curriculum scale, no subject-score column. *)
Definition s2_records : DataFrame :=
  mkDF 1 [("StuID", [VStr "S2"]); ("Y", [VInt 9]); ("CG", [VStr "N5"])].

Definition s2_roster : DataFrame := mkDF 1 [("Student ID", [VStr "S2"])].

(** One year-6 student, no subject-score column. *)
Definition s1_records : DataFrame :=
  mkDF 1 [("StuID", [VStr "S1"]); ("Y", [VInt 6]); ("CG", [VStr "B"])].

Definition s1_roster : DataFrame := mkDF 1 [("Student ID", [VStr "S1"])].

(** A year-8 student with an A in MAT2. *)
Definition mat2_records : DataFrame :=
  mkDF 1 [("StuID", [VStr "S1"]); ("Y", [VInt 8]); ("CG", [VStr "B"]);
          ("MAT2", [VStr "A"])].

(** A year-8 student with the three Unit 1-2 English columns and SVF, one of
    them filled. *)
Definition english_records : DataFrame :=
  mkDF 2 [("StuID", [VStr "S1"; VStr "S3"]); ("Y", [VInt 8; VInt 11]);
          ("CG", [VStr "B"; VStr "A"]);
          ("ENGU12", [blank; VStr "B"]); ("LITU12", [blank; blank]);
          ("SVF", [blank; VStr "A"])].

Definition english_roster : DataFrame :=
  mkDF 3 [("Student ID", [VStr "S3"; VStr "S1"; VStr "S9"])].

(** A year-9 student on the new-curriculum scale and a year-6 record row
    whose student identifier is missing; the roster has a row with a missing
    identifier too. *)
Definition nan_records : DataFrame :=
  mkDF 2 [("StuID", [VStr "S2"; VNaN]); ("Y", [VInt 9; VInt 6]);
          ("CG", [VStr "N5"; VStr "B"])].

Definition nan_roster : DataFrame :=
  mkDF 2 [("Student ID", [VStr "S2"; VNaN])].

(** Records without the composite grade. *)
Definition no_cg_records : DataFrame :=
  mkDF 1 [("StuID", [VStr "S1"]); ("Y", [VInt 6])].

(** A roster that already has a column named after a catalog subject. *)
Definition media_roster : DataFrame :=
  mkDF 1 [("Student ID", [VStr "S1"]); ("Media", [VStr "club"]);
          ("House", [VStr "Red"])].

(** Two record rows of one student, the second at year 10 with science and
    mathematics grades. *)
Definition senior_records : DataFrame :=
  mkDF 2 [("StuID", [VStr "S1"; VStr "S1"]); ("Y", [VInt 9; VInt 10]);
          ("CG", [VStr "N5"; VStr "B"]);
          ("SCI4", [blank; VStr "B"]); ("SCI2", [VStr "A"; blank]);
          ("IMAT2", [blank; VStr "A"]); ("IMAT3", [blank; VStr "S2"])].

(** Records with the required columns and no row. *)
Definition empty_records : DataFrame :=
  mkDF 0 [("StuID", []); ("Y", []); ("CG", [])].

(** A roster in which one student appears twice. *)
Definition twice_roster : DataFrame :=
  mkDF 3 [("Student ID", [VStr "S1"; VStr "S7"; VStr "S1"])].

(** * Properties *)

(** ** Lists, names and columns *)

Lemma targets_body res CG Y : map target (body res CG Y) = catalog.
Proof.
  unfold body, year9. destruct (has_col res "SVF"); reflexivity.
Qed.

Lemma string_mem_In s l : string_mem s l = true <-> In s l.
Proof.
  unfold string_mem. rewrite existsb_exists. split.
  - intros [x [Hx E]]. apply String.eqb_eq in E. now subst.
  - intros H. exists s. split; [assumption | apply String.eqb_refl].
Qed.

Lemma string_mem_false s l : string_mem s l = false <-> ~ In s l.
Proof.
  rewrite <- string_mem_In. destruct (string_mem s l); split; intros H;
    try reflexivity; try discriminate; try (intros E; discriminate).
  exfalso. now apply H.
Qed.

Lemma nodupb_NoDup l : nodupb l = true -> NoDup l.
Proof.
  induction l as [|s t IH]; simpl; intros H; constructor.
  - apply andb_prop in H. destruct H as [H _].
    apply negb_true_iff in H. now apply string_mem_false.
  - apply IH. apply andb_prop in H. tauto.
Qed.

Lemma NoDup_catalog : NoDup catalog.
Proof. apply nodupb_NoDup. vm_compute. reflexivity. Qed.

Lemma student_id_not_subject : ~ In "Student ID" catalog.
Proof. apply string_mem_false. vm_compute. reflexivity. Qed.

Lemma assoc_assign_eq c s l : assoc c (assign c s l) = Some s.
Proof.
  induction l as [|[k v] t IH]; simpl.
  - now rewrite String.eqb_refl.
  - destruct (String.eqb k c) eqn:E; simpl; rewrite E; auto.
Qed.

Lemma assoc_assign_ne c c' s l :
  c <> c' -> assoc c' (assign c s l) = assoc c' l.
Proof.
  intros N. induction l as [|[k v] t IH]; simpl.
  - destruct (String.eqb c c') eqn:E; [|reflexivity].
    apply String.eqb_eq in E. contradiction.
  - destruct (String.eqb k c) eqn:E; simpl.
    + apply String.eqb_eq in E. subst k.
      destruct (String.eqb c c') eqn:E'; [|reflexivity].
      apply String.eqb_eq in E'. contradiction.
    + now rewrite IH.
Qed.

Lemma assign_same c s l : assoc c l = Some s -> assign c s l = l.
Proof.
  induction l as [|[k v] t IH]; simpl; [discriminate|].
  destruct (String.eqb k c) eqn:E; intros H.
  - now inversion H.
  - now rewrite IH.
Qed.

Lemma names_assign c s l :
  map fst (assign c s l) =
  if string_mem c (map fst l) then map fst l else (map fst l ++ [c])%list.
Proof.
  induction l as [|[k v] t IH]; simpl; [reflexivity|].
  rewrite (String.eqb_sym c k).
  destruct (String.eqb k c) eqn:E; simpl; [reflexivity|].
  rewrite IH. now destruct (string_mem c (map fst t)).
Qed.

Lemma filter_assign (keep : string -> bool) c s l :
  keep c = false ->
  filter (fun kv => keep (fst kv)) (assign c s l) =
  filter (fun kv => keep (fst kv)) l.
Proof.
  intros K. induction l as [|[k v] t IH]; simpl.
  - now rewrite K.
  - destruct (String.eqb k c) eqn:E; simpl.
    + apply String.eqb_eq in E. subst k. now rewrite K.
    + now rewrite IH.
Qed.

Lemma length_assign_all n c s l :
  List.length s = n ->
  Forall (fun kv : string * Series => List.length (snd kv) = n) l ->
  Forall (fun kv : string * Series => List.length (snd kv) = n) (assign c s l).
Proof.
  intros Hs. induction 1 as [|[k v] t Hk Ht IH]; simpl.
  - now repeat constructor.
  - destruct (String.eqb k c); constructor; auto.
Qed.

Lemma getitem_setitem_eq d c s : getitem (setitem d c s) c = Some s.
Proof. apply assoc_assign_eq. Qed.

Lemma getitem_setitem_ne d c c' s :
  c <> c' -> getitem (setitem d c s) c' = getitem d c'.
Proof. apply assoc_assign_ne. Qed.

Lemma setitem_same d c s : getitem d c = Some s -> setitem d c s = d.
Proof.
  intros H. unfold setitem. rewrite (assign_same _ _ _ H). now destruct d.
Qed.

Lemma getitem_length d c s :
  wf d -> getitem d c = Some s -> List.length s = nrows d.
Proof.
  intros [_ W]. unfold getitem. induction W as [|[k v] t Hk Ht IH]; simpl.
  - discriminate.
  - destruct (String.eqb k c); [|exact IH].
    intros E. inversion E. subst. exact Hk.
Qed.

Lemma getitem_drop_ne c c' d :
  c' <> c -> getitem (drop_column c d) c' = getitem d c'.
Proof.
  intros N. unfold getitem, drop_column. simpl.
  induction (columns d) as [|[k v] t IH]; simpl; [reflexivity|].
  destruct (String.eqb k c) eqn:E; simpl.
  - apply String.eqb_eq in E. subst k.
    destruct (String.eqb c c') eqn:E'; [|exact IH].
    apply String.eqb_eq in E'. now subst.
  - rewrite IH. reflexivity.
Qed.

Lemma getitem_drop_eq c d : getitem (drop_column c d) c = None.
Proof.
  unfold getitem, drop_column. simpl.
  induction (columns d) as [|[k v] t IH]; simpl; [reflexivity|].
  destruct (String.eqb k c) eqn:E; simpl; [exact IH|].
  now rewrite E.
Qed.

(** ** Element-wise operations, row by row *)

Lemma nth_error_zip_with {A B C} (f : A -> B -> C) a b i :
  nth_error (zip_with f a b) i =
  match nth_error a i, nth_error b i with
  | Some x, Some y => Some (f x y)
  | _, _ => None
  end.
Proof.
  revert b i. induction a as [|x a IH]; intros [|y b] [|i]; simpl;
    try reflexivity.
  - now destruct (nth_error a i).
  - apply IH.
Qed.

Lemma length_zip_with {A B C} (f : A -> B -> C) a b n :
  List.length a = n -> List.length b = n -> List.length (zip_with f a b) = n.
Proof.
  revert b n. induction a as [|x a IH]; intros [|y b] n; simpl;
    intros Ha Hb; try congruence.
  subst n. f_equal. apply IH; congruence.
Qed.

Lemma mask_and_true a b i :
  nth_error (mask_and a b) i = Some true <->
  nth_error a i = Some true /\ nth_error b i = Some true.
Proof.
  unfold mask_and. rewrite nth_error_zip_with.
  destruct (nth_error a i) as [[|]|], (nth_error b i) as [[|]|]; simpl;
    split; try tauto; try discriminate; intros [? ?]; discriminate.
Qed.

Lemma eq_scalar_true s c i :
  nth_error (eq_scalar s c) i = Some true <->
  exists v, nth_error s i = Some v /\ py_eq v c = true.
Proof.
  unfold eq_scalar. rewrite nth_error_map.
  destruct (nth_error s i) as [v|]; simpl; split.
  - intros H. exists v. split; [reflexivity | now inversion H].
  - intros [v' [E H]]. inversion E. subst. now rewrite H.
  - discriminate.
  - intros [v' [E _]]. discriminate.
Qed.

Lemma ne_scalar_true s c i :
  nth_error (ne_scalar s c) i = Some true <->
  exists v, nth_error s i = Some v /\ py_eq v c = false.
Proof.
  unfold ne_scalar. rewrite nth_error_map.
  destruct (nth_error s i) as [v|]; simpl; split.
  - intros H. exists v. split; [reflexivity|]. inversion H as [E].
    now apply negb_true_iff in E.
  - intros [v' [E H]]. inversion E. subst. now rewrite H.
  - discriminate.
  - intros [v' [E _]]. discriminate.
Qed.

(** ** Matching student identifiers *)

Lemma same_key_norm a b : same_key a b = true <-> norm a = norm b.
Proof.
  destruct a as [x|x|x|], b as [y|y|y|]; simpl; split; intros H;
    try discriminate; try reflexivity.
  - apply String.eqb_eq in H. now subst.
  - inversion H. apply String.eqb_refl.
  - apply Z.eqb_eq in H. now subst.
  - inversion H. apply Z.eqb_refl.
  - apply Z.eqb_eq in H. now subst.
  - inversion H. apply Z.eqb_refl.
  - apply Z.eqb_eq in H. now subst.
  - inversion H. apply Z.eqb_refl.
  - apply eqb_prop in H. now subst.
  - inversion H as [E]. destruct x, y; simpl in *; try reflexivity; lia.
Qed.

(** On strings and integers the match is plain equality with a cell of the
    same kind. *)
Lemma same_key_str a b : same_key (VStr a) (VStr b) = true <-> a = b.
Proof. simpl. apply String.eqb_eq. Qed.

Lemma same_key_int a b : same_key (VInt a) (VInt b) = true <-> a = b.
Proof. simpl. apply Z.eqb_eq. Qed.

Lemma member_spec v l :
  member v l = true <-> exists w, In w l /\ same_key v w = true.
Proof. unfold member. apply existsb_exists. Qed.

Lemma member_cons v w l : member v (w :: l) = same_key v w || member v l.
Proof. reflexivity. Qed.

Lemma same_key_member v w l :
  same_key v w = true -> member w l = true -> member v l = true.
Proof.
  intros Hvw Hw. apply member_spec in Hw. destruct Hw as [u [Hu Hwu]].
  apply member_spec. exists u. split; [assumption|].
  apply same_key_norm. apply same_key_norm in Hvw, Hwu. congruence.
Qed.

Lemma member_unique_from v s : forall seen,
  member v (unique_from seen s) = true \/ member v seen = true <->
  member v s = true \/ member v seen = true.
Proof.
  induction s as [|w t IH]; intros seen; [simpl; tauto|].
  cbn [unique_from]. destruct (member w seen) eqn:Hw.
  - rewrite IH, member_cons, orb_true_iff. split; [tauto|].
    intros [[H|H]|H]; auto. right. now apply same_key_member with w.
  - rewrite !member_cons, !orb_true_iff.
    specialize (IH (w :: seen)). rewrite member_cons, orb_true_iff in IH.
    tauto.
Qed.

Lemma member_unique v s : member v (unique s) = member v s.
Proof.
  pose proof (member_unique_from v s []) as H. unfold unique.
  simpl in H.
  destruct (member v (unique_from [] s)), (member v s); try reflexivity.
  - destruct H as [H _]. destruct H; auto; discriminate.
  - destruct H as [_ H]. destruct H; auto; discriminate.
Qed.

Lemma In_loc m : forall s v,
  In v (loc m s) <->
  exists j, nth_error m j = Some true /\ nth_error s j = Some v.
Proof.
  induction m as [|b m IH]; intros [|w s] v; simpl.
  - split; [tauto | intros [[|j] [H _]]; discriminate].
  - split; [tauto | intros [[|j] [H _]]; discriminate].
  - split; [tauto | intros [[|j] [_ H]]; discriminate].
  - destruct b; simpl; rewrite IH; split.
    + intros [E | [j H]]; [exists 0%nat; subst; auto | exists (S j); auto].
    + intros [[|j] [Hm Hs]]; simpl in *;
        [left; congruence | right; eauto].
    + intros [j H]. exists (S j). auto.
    + intros [[|j] [Hm Hs]]; simpl in *; [discriminate | eauto].
Qed.

(** ** The column written by [set_flag] *)

Lemma length_flags_for stu ids m :
  List.length (flags_for stu ids m) = List.length ids.
Proof. unfold flags_for, astype_int, isin. now rewrite !length_map. Qed.

Lemma flags_for_nth stu ids m i id :
  nth_error ids i = Some id ->
  nth_error (flags_for stu ids m) i =
  Some (VInt (Z.b2z (member id (loc m stu)))).
Proof.
  intros H. unfold flags_for, astype_int, isin.
  rewrite !nth_error_map, H. simpl. now rewrite member_unique.
Qed.

Lemma member_loc id m stu :
  member id (loc m stu) = true <->
  exists j sid, nth_error m j = Some true /\ nth_error stu j = Some sid /\
                same_key id sid = true.
Proof.
  rewrite member_spec. split.
  - intros [w [Hw K]]. apply In_loc in Hw. destruct Hw as [j [Hm Hs]].
    exists j, w. auto.
  - intros [j [sid [Hm [Hs K]]]]. exists sid. split; [|assumption].
    apply In_loc. eauto.
Qed.

Lemma member_none id l :
  (forall w, In w l -> same_key id w = false) -> member id l = false.
Proof.
  intros H. destruct (member id l) eqn:E; [|reflexivity].
  apply member_spec in E. destruct E as [w [Hw K]].
  rewrite (H w Hw) in K. discriminate.
Qed.

Lemma In_loc_In m s v : In v (loc m s) -> In v s.
Proof.
  intros H. apply In_loc in H. destruct H as [j [_ H]].
  eapply nth_error_In; eauto.
Qed.

(** ** Running the body *)

Lemma nrows_write_all stu ids l : forall d,
  nrows (write_all stu ids l d) = nrows d.
Proof.
  unfold write_all. induction l as [|st l IH]; intros d; simpl;
    [reflexivity|]. now rewrite IH.
Qed.

Lemma getitem_write_all_other stu ids c l : forall d,
  ~ In c (map target l) ->
  getitem (write_all stu ids l d) c = getitem d c.
Proof.
  unfold write_all. induction l as [|st l IH]; intros d N; simpl;
    [reflexivity|].
  simpl in N. rewrite IH by tauto.
  apply getitem_setitem_ne. intros E. apply N. now left.
Qed.

Lemma getitem_write_all_in stu ids st l : forall d,
  NoDup (map target l) -> In st l ->
  getitem (write_all stu ids l d) (target st) =
  Some (written stu ids (nrows d) st).
Proof.
  induction l as [|st' l IH]; intros d ND Hin; [contradiction|].
  simpl in ND. inversion ND as [|? ? Hfresh ND']. subst.
  change (write_all stu ids (st' :: l) d)
    with (write_all stu ids l
            (setitem d (target st') (written stu ids (nrows d) st'))).
  destruct Hin as [E | Hin].
  - subst st'. rewrite getitem_write_all_other by assumption.
    apply getitem_setitem_eq.
  - rewrite IH by assumption. reflexivity.
Qed.

Lemma run_all_ok res stu :
  getitem res "StuID" = Some stu ->
  forall l d ids,
    getitem d "Student ID" = Some ids ->
    ~ In "Student ID" (map target l) ->
    run_all res l d = (write_all stu ids l d, inr tt).
Proof.
  intros Hstu. induction l as [|st l IH]; intros d ids Hids N;
    [reflexivity|].
  simpl in N.
  assert (Hstep : run_stmt res st d =
                  (setitem d (target st) (written stu ids (nrows d) st),
                   inr tt)).
  { destruct st as [m c | c]; simpl; [|reflexivity].
    unfold set_flag, bind, col_of, df_get, df_set, ret.
    now rewrite Hstu, Hids. }
  simpl. unfold bind at 1. rewrite Hstep.
  apply IH; [|tauto].
  rewrite getitem_setitem_ne; [assumption|]. intros E. apply N. now left.
Qed.

Lemma body_head res CG Y :
  exists rest,
    body res CG Y = SetFlag (y6 Y) "Design and Technologies" :: rest.
Proof. eexists. reflexivity. Qed.

Lemma not_student_id_body res CG Y :
  ~ In "Student ID" (map target (body res CG Y)).
Proof. rewrite targets_body. apply student_id_not_subject. Qed.

Lemma NoDup_targets_body res CG Y : NoDup (map target (body res CG Y)).
Proof. rewrite targets_body. apply NoDup_catalog. Qed.

(** With the four required columns in place the run succeeds and leaves the
    roster as [write_all] describes. *)
Lemma apply_ok res d cg y stu ids :
  getitem res "CG" = Some cg ->
  getitem res "Y" = Some y ->
  getitem res "StuID" = Some stu ->
  getitem d "Student ID" = Some ids ->
  apply_prerequisites res d =
  (write_all stu ids (body res cg y) d,
   inr (write_all stu ids (body res cg y) d)).
Proof.
  intros Hcg Hy Hstu Hids. unfold apply_prerequisites, col_of.
  rewrite Hcg, Hy. unfold bind, ret, return_df.
  rewrite (run_all_ok res stu Hstu _ d ids Hids (not_student_id_body _ _ _)).
  reflexivity.
Qed.

(** Without one of them it raises at the first place that needs it, the
    roster as it was. *)
Lemma apply_fails res d :
  getitem res "CG" = None \/ getitem res "Y" = None \/
  getitem res "StuID" = None \/ getitem d "Student ID" = None ->
  exists key, apply_prerequisites res d = (d, inl (KeyError key)).
Proof.
  intros H. unfold apply_prerequisites, col_of.
  destruct (getitem res "CG") as [cg|] eqn:Hcg;
    [|exists "CG"; reflexivity].
  destruct (getitem res "Y") as [y|] eqn:Hy;
    [|exists "Y"; reflexivity].
  change (exists key,
            bind (run_all res (body res cg y)) (fun _ => return_df) d =
            (d, inl (KeyError key))).
  destruct (body_head res cg y) as [rest ->].
  cbn [run_all run_stmt]. unfold set_flag, bind, col_of, df_get, raise, ret.
  destruct (getitem res "StuID") as [stu|] eqn:Hstu;
    [|exists "StuID"; reflexivity].
  cbv beta iota.
  destruct (getitem d "Student ID") as [ids|] eqn:Hids;
    [|exists "Student ID"; reflexivity].
  exfalso. destruct H as [H|[H|[H|H]]]; discriminate.
Qed.

Lemma loc_repeat_false n : forall s, loc (repeat false n) s = [].
Proof.
  induction n as [|n IH]; intros [|v s]; simpl; auto.
Qed.

Lemma subject_has_stmt res CG Y s :
  In s catalog -> exists st, In st (body res CG Y) /\ target st = s.
Proof.
  rewrite <- (targets_body res CG Y). intros H.
  apply in_map_iff in H. destruct H as [st [E H]]. eauto.
Qed.

(** The cell a statement leaves in row [i] says whether some record row of
    that student satisfies the statement's predicate. *)
Lemma written_cell res stu ids n st i id :
  nth_error ids i = Some id -> (i < n)%nat ->
  nth_error (written stu ids n st) i =
  Some (VInt (Z.b2z (member id (loc (rule_mask res st) stu)))).
Proof.
  intros Hid Hi. destruct st as [m c | c]; simpl.
  - now apply flags_for_nth.
  - unfold all_false. rewrite loc_repeat_false. simpl.
    now apply nth_error_repeat.
Qed.

Lemma length_written stu ids st :
  List.length (written stu ids (List.length ids) st) = List.length ids.
Proof.
  destruct st; simpl; [apply length_flags_for | apply repeat_length].
Qed.

Lemma roster_row d ids i :
  wf d -> getitem d "Student ID" = Some ids -> (i < nrows d)%nat ->
  exists id, nth_error ids i = Some id.
Proof.
  intros W H Hi. rewrite <- (getitem_length d _ ids W H) in Hi.
  destruct (nth_error ids i) eqn:E; eauto.
  apply nth_error_None in E. lia.
Qed.

Lemma write_all_again stu ids l : forall d,
  (forall st, In st l ->
     getitem d (target st) = Some (written stu ids (nrows d) st)) ->
  write_all stu ids l d = d.
Proof.
  induction l as [|st l IH]; intros d H; [reflexivity|].
  change (write_all stu ids (st :: l) d)
    with (write_all stu ids l
            (setitem d (target st) (written stu ids (nrows d) st))).
  rewrite setitem_same by (apply H; now left).
  apply IH. intros st' Hin. apply H. now right.
Qed.

(** ** The claims *)

(** C4.  When a required column is missing ([StuID], [Y] or [CG] in the
    records, [Student ID] in the roster) the run raises a [KeyError] for one
    of these four names, and the roster the caller holds is the roster that
    was passed in: no flag column has been written. *)
Theorem missing_required_column_fails res df :
  getitem res "StuID" = None \/ getitem res "Y" = None \/
  getitem res "CG" = None \/ getitem df "Student ID" = None ->
  exists key,
    In key ["CG"; "Y"; "StuID"; "Student ID"] /\
    apply_prerequisites res df = (df, inl (KeyError key)).
Proof.
  intros H.
  assert (H' : getitem res "CG" = None \/ getitem res "Y" = None \/
               getitem res "StuID" = None \/
               getitem df "Student ID" = None) by tauto.
  clear H. unfold apply_prerequisites, col_of.
  destruct (getitem res "CG") as [cg|] eqn:Hcg;
    [|exists "CG"; split; [simpl; tauto | reflexivity]].
  destruct (getitem res "Y") as [y|] eqn:Hy;
    [|exists "Y"; split; [simpl; tauto | reflexivity]].
  change (exists key,
            In key ["CG"; "Y"; "StuID"; "Student ID"] /\
            bind (run_all res (body res cg y)) (fun _ => return_df) df =
            (df, inl (KeyError key))).
  destruct (body_head res cg y) as [rest ->].
  cbn [run_all run_stmt]. unfold set_flag, bind, col_of, df_get, raise, ret.
  destruct (getitem res "StuID") as [stu|] eqn:Hstu;
    [|exists "StuID"; split; [simpl; tauto | reflexivity]].
  cbv beta iota.
  destruct (getitem df "Student ID") as [ids|] eqn:Hids;
    [|exists "Student ID"; split; [simpl; tauto | reflexivity]].
  exfalso. destruct H' as [H|[H|[H|H]]]; discriminate.
Qed.

Lemma missing_required_column_fails_witness :
  exists key,
    In key ["CG"; "Y"; "StuID"; "Student ID"] /\
    apply_prerequisites no_cg_records s1_roster =
    (s1_roster, inl (KeyError key)).
Proof.
  apply (missing_required_column_fails no_cg_records s1_roster).
  right. right. left. reflexivity.
Defined.

Lemma same_key_cases a b :
  same_key a b = true <-> py_eq a b = true \/ (a = VNaN /\ b = VNaN).
Proof.
  destruct a, b; simpl; split; intros H; auto;
    try (destruct H as [H|[H1 H2]]; auto; discriminate).
Qed.

Lemma member_loc_eq id m stu :
  member id (loc m stu) = true <->
  exists j sid,
    nth_error m j = Some true /\ nth_error stu j = Some sid /\
    (py_eq id sid = true \/ (id = VNaN /\ sid = VNaN)).
Proof.
  rewrite member_loc. split; intros [j [sid [Hm [Hs K]]]]; exists j, sid;
    (split; [assumption|]; split; [assumption|]); now apply same_key_cases.
Qed.

(** C3, as amended.  For every catalog subject the roster ends up with a
    column holding, in every roster row, the integer 0 or 1; the cell is 1
    exactly when some record row satisfies the predicate of the subject's
    statement and has a [StuID] equal to the row's [Student ID], or a missing
    [StuID] where the row's [Student ID] is missing too. *)
Theorem flag_iff_some_matching_row_qualifies res df cg y stu ids :
  wf df ->
  getitem res "CG" = Some cg ->
  getitem res "Y" = Some y ->
  getitem res "StuID" = Some stu ->
  getitem df "Student ID" = Some ids ->
  forall s, In s catalog ->
  exists st flags,
    In st (body res cg y) /\ target st = s /\
    getitem (fst (apply_prerequisites res df)) s = Some flags /\
    List.length flags = nrows df /\
    forall i, (i < nrows df)%nat ->
      exists id b,
        nth_error ids i = Some id /\
        nth_error flags i = Some (VInt (Z.b2z b)) /\
        (b = true <->
         exists j sid,
           nth_error (rule_mask res st) j = Some true /\
           nth_error stu j = Some sid /\
           (py_eq id sid = true \/ (id = VNaN /\ sid = VNaN))).
Proof.
  intros W Hcg Hy Hstu Hids s Hs.
  destruct (subject_has_stmt res cg y s Hs) as [st [Hin Ht]].
  exists st, (written stu ids (nrows df) st).
  rewrite (apply_ok res df cg y stu ids Hcg Hy Hstu Hids). cbn [fst].
  pose proof (getitem_length df _ ids W Hids) as Hlen.
  split; [assumption|]. split; [assumption|]. split; [|split].
  - rewrite <- Ht.
    apply getitem_write_all_in; [apply NoDup_targets_body | assumption].
  - rewrite <- Hlen. apply length_written.
  - intros i Hi. destruct (roster_row df ids i W Hids Hi) as [id Hid].
    exists id, (member id (loc (rule_mask res st) stu)).
    split; [assumption|]. split.
    + now apply written_cell.
    + apply member_loc_eq.
Qed.

Lemma flag_iff_some_matching_row_qualifies_witness :
  exists st flags,
    In st (body nan_records [VStr "N5"; VStr "B"] [VInt 9; VInt 6]) /\
    target st = "Biology U12" /\
    getitem (fst (apply_prerequisites nan_records nan_roster)) "Biology U12" =
    Some flags /\
    List.length flags = nrows nan_roster /\
    forall i, (i < nrows nan_roster)%nat ->
      exists id b,
        nth_error [VStr "S2"; VNaN] i = Some id /\
        nth_error flags i = Some (VInt (Z.b2z b)) /\
        (b = true <->
         exists j sid,
           nth_error (rule_mask nan_records st) j = Some true /\
           nth_error [VStr "S2"; VNaN] j = Some sid /\
           (py_eq id sid = true \/ (id = VNaN /\ sid = VNaN))).
Proof.
  apply (flag_iff_some_matching_row_qualifies
           nan_records nan_roster [VStr "N5"; VStr "B"] [VInt 9; VInt 6]
           [VStr "S2"; VNaN] [VStr "S2"; VNaN]).
  - split; [repeat constructor; simpl; tauto | repeat constructor].
  - reflexivity.
  - reflexivity.
  - reflexivity.
  - reflexivity.
  - apply string_mem_In. vm_compute. reflexivity.
Defined.

(** C3 as stated fails: a roster row whose [Student ID] is missing is
    flagged 1 for 'Design and Technologies' by the year-6 record row whose
    [StuID] is missing, though a missing value equals nothing. *)
Lemma missing_student_id_is_flagged :
  ~ (forall res df cg y stu ids,
       wf df ->
       getitem res "CG" = Some cg ->
       getitem res "Y" = Some y ->
       getitem res "StuID" = Some stu ->
       getitem df "Student ID" = Some ids ->
       forall s, In s catalog ->
       exists st flags,
         In st (body res cg y) /\ target st = s /\
         getitem (fst (apply_prerequisites res df)) s = Some flags /\
         List.length flags = nrows df /\
         forall i, (i < nrows df)%nat ->
           exists id b,
             nth_error ids i = Some id /\
             nth_error flags i = Some (VInt (Z.b2z b)) /\
             (b = true <->
              exists j sid,
                nth_error (rule_mask res st) j = Some true /\
                nth_error stu j = Some sid /\
                py_eq id sid = true)).
Proof.
  intros H.
  assert (W : wf nan_roster)
    by (split; [apply nodupb_NoDup; reflexivity | repeat constructor]).
  assert (Hs : In "Design and Technologies" catalog)
    by (apply string_mem_In; reflexivity).
  destruct (H nan_records nan_roster [VStr "N5"; VStr "B"] [VInt 9; VInt 6]
              [VStr "S2"; VNaN] [VStr "S2"; VNaN]
              W eq_refl eq_refl eq_refl eq_refl
              "Design and Technologies" Hs)
    as [st [flags [_ [_ [Hg [_ Hrow]]]]]].
  vm_compute in Hg. injection Hg as <-.
  destruct (Hrow 1%nat) as [id [b [Hid [Hb Hiff]]]]; [simpl; lia|].
  simpl in Hid, Hb. injection Hid as <-.
  destruct b; [|discriminate].
  destruct Hiff as [Hiff _].
  destruct (Hiff eq_refl) as [j [sid [_ [_ E]]]]. discriminate.
Qed.

(** C6, as amended.  The run succeeds whatever students the records name; the
    roster keeps its rows and its [Student ID] column, so a student known
    only to the records gets no row; and a roster row holds 0 under every
    catalog subject when its [Student ID] equals no [StuID] of the records
    and is not a missing value facing a missing [StuID]. *)
Theorem join_on_student_id_or_missing res df cg y stu ids :
  wf df ->
  getitem res "CG" = Some cg ->
  getitem res "Y" = Some y ->
  getitem res "StuID" = Some stu ->
  getitem df "Student ID" = Some ids ->
  let out := fst (apply_prerequisites res df) in
  snd (apply_prerequisites res df) = inr out /\
  nrows out = nrows df /\
  getitem out "Student ID" = Some ids /\
  forall i id,
    nth_error ids i = Some id ->
    (forall sid, In sid stu ->
       py_eq id sid = false /\ ~ (id = VNaN /\ sid = VNaN)) ->
    forall s, In s catalog ->
    exists flags,
      getitem out s = Some flags /\ nth_error flags i = Some (VInt 0).
Proof.
  intros W Hcg Hy Hstu Hids.
  rewrite (apply_ok res df cg y stu ids Hcg Hy Hstu Hids). cbn [fst snd].
  split; [reflexivity|]. split; [apply nrows_write_all|]. split.
  - rewrite getitem_write_all_other by apply not_student_id_body.
    assumption.
  - intros i id Hid Hnone s Hs.
    destruct (subject_has_stmt res cg y s Hs) as [st [Hin Ht]].
    exists (written stu ids (nrows df) st). split.
    + rewrite <- Ht.
      apply getitem_write_all_in; [apply NoDup_targets_body | assumption].
    + assert (Hi : (i < nrows df)%nat).
      { rewrite <- (getitem_length df _ ids W Hids).
        apply nth_error_Some. congruence. }
      rewrite (written_cell res stu ids (nrows df) st i id Hid Hi).
      rewrite member_none; [reflexivity|].
      intros w Hw. apply In_loc_In in Hw.
      destruct (Hnone w Hw) as [Hne Hnan].
      destruct (same_key id w) eqn:K; [|reflexivity].
      apply same_key_cases in K. destruct K as [K|K]; [congruence|].
      contradiction.
Qed.

Lemma join_on_student_id_or_missing_witness :
  let out := fst (apply_prerequisites english_records english_roster) in
  snd (apply_prerequisites english_records english_roster) = inr out /\
  nrows out = nrows english_roster /\
  getitem out "Student ID" = Some [VStr "S3"; VStr "S1"; VStr "S9"] /\
  forall i id,
    nth_error [VStr "S3"; VStr "S1"; VStr "S9"] i = Some id ->
    (forall sid, In sid [VStr "S1"; VStr "S3"] ->
       py_eq id sid = false /\ ~ (id = VNaN /\ sid = VNaN)) ->
    forall s, In s catalog ->
    exists flags,
      getitem out s = Some flags /\ nth_error flags i = Some (VInt 0).
Proof.
  apply (join_on_student_id_or_missing english_records english_roster
           [VStr "B"; VStr "A"] [VInt 8; VInt 11]
           [VStr "S1"; VStr "S3"] [VStr "S3"; VStr "S1"; VStr "S9"]).
  - split; [repeat constructor; simpl; tauto | repeat constructor].
  - reflexivity.
  - reflexivity.
  - reflexivity.
  - reflexivity.
Defined.

(** C6 as stated fails: the roster row with a missing [Student ID] equals no
    [StuID] of the records, yet 'Design and Technologies' is 1 for it,
    because the records hold a year-6 row with a missing [StuID]. *)
Lemma missing_student_id_joins_missing_stuid :
  ~ (forall res df cg y stu ids,
       wf df ->
       getitem res "CG" = Some cg ->
       getitem res "Y" = Some y ->
       getitem res "StuID" = Some stu ->
       getitem df "Student ID" = Some ids ->
       forall i id,
         nth_error ids i = Some id ->
         (forall sid, In sid stu -> py_eq id sid = false) ->
         forall s, In s catalog ->
         exists flags,
           getitem (fst (apply_prerequisites res df)) s = Some flags /\
           nth_error flags i = Some (VInt 0)).
Proof.
  intros H.
  assert (W : wf nan_roster)
    by (split; [apply nodupb_NoDup; reflexivity | repeat constructor]).
  assert (Hs : In "Design and Technologies" catalog)
    by (apply string_mem_In; reflexivity).
  destruct (H nan_records nan_roster [VStr "N5"; VStr "B"] [VInt 9; VInt 6]
              [VStr "S2"; VNaN] [VStr "S2"; VNaN]
              W eq_refl eq_refl eq_refl eq_refl
              1%nat VNaN eq_refl (fun sid _ => eq_refl)
              "Design and Technologies" Hs)
    as [flags [Hg Hz]].
  vm_compute in Hg. injection Hg as <-. discriminate.
Qed.

(** C8.  Running again on the roster the first run left, with the same
    records, gives the same roster and the same outcome: every flag column
    is overwritten with the values it already holds. *)
Theorem rerun_reproduces_flags res df :
  apply_prerequisites res (fst (apply_prerequisites res df)) =
  apply_prerequisites res df.
Proof.
  destruct (getitem res "CG") as [cg|] eqn:Hcg;
    [|destruct (apply_fails res df) as [k E]; [tauto|];
      now rewrite E].
  destruct (getitem res "Y") as [y|] eqn:Hy;
    [|destruct (apply_fails res df) as [k E]; [tauto|];
      now rewrite E].
  destruct (getitem res "StuID") as [stu|] eqn:Hstu;
    [|destruct (apply_fails res df) as [k E]; [tauto|];
      now rewrite E].
  destruct (getitem df "Student ID") as [ids|] eqn:Hids;
    [|destruct (apply_fails res df) as [k E]; [tauto|];
      now rewrite E].
  rewrite (apply_ok res df cg y stu ids Hcg Hy Hstu Hids). cbn [fst].
  set (l := body res cg y).
  assert (Hids' : getitem (write_all stu ids l df) "Student ID" = Some ids).
  { rewrite getitem_write_all_other by apply not_student_id_body.
    assumption. }
  rewrite (apply_ok res _ cg y stu ids Hcg Hy Hstu Hids'). fold l.
  rewrite (write_all_again stu ids l (write_all stu ids l df)).
  - reflexivity.
  - intros st Hin. rewrite nrows_write_all.
    apply getitem_write_all_in; [apply NoDup_targets_body | assumption].
Qed.

(** C5.  In the scenario of one year-9 record with composite grade N5 and no
    subject-score column, 'Biology U12' is 1 for S2; of the four clauses of
    its rule (line 198) only the year-9 new-curriculum clause holds. *)
Theorem biology_u12_new_curriculum_override :
  let res := s2_records in
  let cg := [VStr "N5"] in
  let y := [VInt 9] in
  apply_prerequisites res s2_roster =
    (fst (apply_prerequisites res s2_roster),
     inr (fst (apply_prerequisites res s2_roster))) /\
  getitem (fst (apply_prerequisites res s2_roster)) "Biology U12" =
    Some [VInt 1] /\
  mask_and (mask_and (y9 y) (cgtop4 cg))
    (mask_or (isin_str (opt res "SCI3") ["B+"; "A"; "A+"])
             (ne_scalar (opt res "RSC1") blank)) = [false] /\
  mask_and (y9 y) (new4 cg) = [true] /\
  mask_and (y10 y) (new4 cg) = [false] /\
  mask_and (mask_and (y10 y) (sci_min10 res y))
    (eq_scalar (opt res "BIOU12") blank) = [false].
Proof. vm_compute. repeat split; reflexivity. Qed.

(** X2.  What [sget]'s default of [False] does to the three kinds of test made on
    an optional column that the records lack: [isin] and [== ''] fail in
    every row, [!= ''] holds in every row. *)
Lemma absent_column_tests res c grades :
  getitem res c = None ->
  isin_str (opt res c) grades = repeat false (nrows res) /\
  eq_scalar (opt res c) blank = repeat false (nrows res) /\
  ne_scalar (opt res c) blank = repeat true (nrows res).
Proof.
  intros H. unfold opt, sget, isin_str, isin, eq_scalar, ne_scalar.
  rewrite H. rewrite !map_repeat. repeat split.
  f_equal. unfold member. induction grades as [|g t IH]; simpl; auto.
Qed.

(** C1 (the code departs from the claim).  With no BIOU12 column in the
    records, [sget('BIOU12')] is a series of [False], and [False != ''] holds
    in every row: 'Biology U34' is 1 for the student, where the claim has
    0. *)
Theorem absent_marker_column_sets_u34_flag :
  has_col s1_records "BIOU12" = false /\
  ne_scalar (opt s1_records "BIOU12") blank = [true] /\
  getitem (fst (apply_prerequisites s1_records s1_roster)) "Biology U34" =
    Some [VInt 1].
Proof. vm_compute. repeat split; reflexivity. Qed.

(** ** 'Social Values in Film' and the Unit 3-4 English streams *)

Lemma has_col_false d c : has_col d c = false <-> getitem d c = None.
Proof.
  unfold has_col. destruct (getitem d c); split; congruence.
Qed.

Lemma opt_present res c s : getitem res c = Some s -> opt res c = s.
Proof. intros H. unfold opt, sget. now rewrite H. Qed.

Lemma forces_zero_body res CG Y :
  filter forces_zero (body res CG Y) =
  if has_col res "SVF" then [] else [SetZero "Social Values in Film"].
Proof.
  unfold body, year9. destruct (has_col res "SVF"); reflexivity.
Qed.

Lemma svf_stmt_in_body res CG Y :
  In (if has_col res "SVF"
      then SetFlag (svf_mask res Y) "Social Values in Film"
      else SetZero "Social Values in Film")
     (body res CG Y).
Proof.
  unfold body. apply in_or_app. right. apply in_or_app. right.
  apply in_or_app. left. unfold year9.
  apply in_or_app. right. apply in_or_app. right. apply in_or_app. left.
  destruct (has_col res "SVF"); left; reflexivity.
Qed.

Lemma english_stmts_in_body res CG Y :
  In (SetFlag (mask_any_u12_english res) "English U34") (body res CG Y) /\
  In (SetFlag (mask_any_u12_english res) "English Language U34")
     (body res CG Y) /\
  In (SetFlag (mask_any_u12_english res) "Literature U34") (body res CG Y).
Proof.
  assert (H : forall st, In st (unit34 res CG Y) -> In st (body res CG Y)).
  { intros st H. unfold body. repeat (apply in_or_app; right). exact H. }
  repeat split; apply H; unfold unit34;
    do 8 right; [left | right; left | right; right; left]; reflexivity.
Qed.

Lemma either_scalar_true s a b j :
  nth_error (mask_or (eq_scalar s a) (eq_scalar s b)) j = Some true <->
  exists v, nth_error s j = Some v /\
            (py_eq v a = true \/ py_eq v b = true).
Proof.
  unfold mask_or, eq_scalar. rewrite nth_error_zip_with, !nth_error_map.
  destruct (nth_error s j) as [v|]; simpl; split.
  - intros H. exists v. split; [reflexivity|]. injection H as E.
    now apply orb_true_iff in E.
  - intros [v' [E H]]. injection E as E. subst v'. f_equal.
    now apply orb_true_iff.
  - discriminate.
  - intros [v' [E _]]. discriminate.
Qed.

Lemma svf_mask_true res Y svf j :
  getitem res "SVF" = Some svf ->
  (nth_error (svf_mask res Y) j = Some true <->
   exists yv v,
     nth_error Y j = Some yv /\
     (py_eq yv (VInt 8) = true \/ py_eq yv (VInt 9) = true) /\
     nth_error svf j = Some v /\ py_eq v blank = true).
Proof.
  intros H. unfold svf_mask, y8, y9. rewrite (opt_present res _ svf H).
  rewrite mask_and_true, eq_scalar_true, either_scalar_true. split.
  - intros [[v [Hv E]] [yv [Hy D]]]. exists yv, v. auto.
  - intros [yv [v [Hy [D [Hv E]]]]]. split; eauto.
Qed.

Lemma mask_or_true_aligned a b i :
  List.length a = List.length b ->
  (nth_error (mask_or a b) i = Some true <->
   nth_error a i = Some true \/ nth_error b i = Some true).
Proof.
  intros L. unfold mask_or. rewrite nth_error_zip_with.
  destruct (nth_error a i) as [x|] eqn:Ha, (nth_error b i) as [z|] eqn:Hb.
  - destruct x, z; simpl; split; auto; intros [H|H]; discriminate.
  - exfalso. apply nth_error_None in Hb.
    assert (i < List.length a)%nat by (apply nth_error_Some; congruence).
    lia.
  - exfalso. apply nth_error_None in Ha.
    assert (i < List.length b)%nat by (apply nth_error_Some; congruence).
    lia.
  - split; [discriminate | intros [H|H]; discriminate].
Qed.

Lemma any_filled_from res j : wf res -> forall cols acc,
  List.length acc = nrows res ->
  (nth_error
     (fold_left
        (fun mask col =>
           match getitem res col with
           | Some s => mask_or mask (ne_scalar s blank)
           | None => mask
           end) cols acc) j = Some true <->
   nth_error acc j = Some true \/
   exists col s v,
     In col cols /\ getitem res col = Some s /\
     nth_error s j = Some v /\ py_eq v blank = false).
Proof.
  intros W. induction cols as [|col cols IH]; intros acc L; simpl.
  - split; [tauto|]. intros [H|[col [s [v [[] _]]]]]. exact H.
  - destruct (getitem res col) as [s|] eqn:Hc.
    + assert (Ls : List.length (ne_scalar s blank) = nrows res).
      { unfold ne_scalar. rewrite length_map.
        eapply getitem_length; eauto. }
      rewrite IH by (apply length_zip_with; assumption).
      rewrite mask_or_true_aligned by congruence.
      rewrite ne_scalar_true. split.
      * intros [[H|[v [Hv E]]]|[c' [s' [v [Hin H]]]]]; auto.
        -- right. exists col, s, v. auto.
        -- right. exists c', s', v. auto.
      * intros [H|[c' [s' [v [[E|Hin] [Hg [Hv Hb]]]]]]]; auto.
        -- subst c'. rewrite Hc in Hg. inversion Hg. subst s'.
           left. right. eauto.
        -- right. exists c', s', v. auto.
    + rewrite IH by assumption. split.
      * intros [H|[c' [s' [v [Hin H]]]]]; auto.
        right. exists c', s', v. auto.
      * intros [H|[c' [s' [v [[E|Hin] [Hg H]]]]]]; auto.
        -- subst c'. congruence.
        -- right. exists c', s', v. auto.
Qed.

Lemma any_present_filled_true res cols j :
  wf res ->
  (nth_error (any_present_filled res cols) j = Some true <->
   exists col s v,
     In col cols /\ getitem res col = Some s /\
     nth_error s j = Some v /\ py_eq v blank = false).
Proof.
  intros W. unfold any_present_filled.
  rewrite (any_filled_from res j W cols (all_false res))
    by apply repeat_length.
  split; [|auto]. intros [H|H]; [|exact H].
  exfalso. unfold all_false in H.
  apply nth_error_In, repeat_spec in H. discriminate.
Qed.

(** C10.  The only statement of the body that assigns 0 outright is the one
    for 'Social Values in Film', taken when the records have no SVF column;
    then every roster row gets 0.  When the column is there, a roster row
    gets 1 exactly when some record row of that student is at year 8 or 9
    with an empty SVF cell. *)
Theorem social_values_in_film_flag res df cg y stu ids :
  wf df ->
  getitem res "CG" = Some cg ->
  getitem res "Y" = Some y ->
  getitem res "StuID" = Some stu ->
  getitem df "Student ID" = Some ids ->
  let out := fst (apply_prerequisites res df) in
  (forall s, In (SetZero s) (body res cg y) ->
     s = "Social Values in Film" /\ getitem res "SVF" = None) /\
  (getitem res "SVF" = None ->
   exists flags,
     getitem out "Social Values in Film" = Some flags /\
     List.length flags = nrows df /\
     forall i, (i < nrows df)%nat -> nth_error flags i = Some (VInt 0)) /\
  (forall svf, getitem res "SVF" = Some svf ->
   exists flags,
     getitem out "Social Values in Film" = Some flags /\
     forall i, (i < nrows df)%nat ->
       exists id b,
         nth_error ids i = Some id /\
         nth_error flags i = Some (VInt (Z.b2z b)) /\
         (b = true <->
          exists j sid yv v,
            nth_error stu j = Some sid /\ same_key id sid = true /\
            nth_error y j = Some yv /\
            (py_eq yv (VInt 8) = true \/ py_eq yv (VInt 9) = true) /\
            nth_error svf j = Some v /\ py_eq v blank = true)).
Proof.
  intros W Hcg Hy Hstu Hids.
  rewrite (apply_ok res df cg y stu ids Hcg Hy Hstu Hids). cbn [fst].
  pose proof (svf_stmt_in_body res cg y) as Hin.
  split; [|split].
  - intros s Hs.
    assert (Hf : In (SetZero s) (filter forces_zero (body res cg y))).
    { apply filter_In. split; [assumption | reflexivity]. }
    rewrite forces_zero_body in Hf.
    destruct (has_col res "SVF") eqn:E; [contradiction|].
    destruct Hf as [Hf|[]]. inversion Hf. split; [reflexivity|].
    now apply has_col_false.
  - intros Habs. apply has_col_false in Habs. rewrite Habs in Hin.
    exists (repeat (VInt 0) (nrows df)). split; [|split].
    + apply (getitem_write_all_in stu ids _ _ df
               (NoDup_targets_body res cg y) Hin).
    + apply repeat_length.
    + intros i Hi. now apply nth_error_repeat.
  - intros svf Hsvf.
    assert (E : has_col res "SVF" = true) by (unfold has_col; now rewrite Hsvf).
    rewrite E in Hin.
    exists (flags_for stu ids (svf_mask res y)). split.
    + apply (getitem_write_all_in stu ids _ _ df
               (NoDup_targets_body res cg y) Hin).
    + intros i Hi. destruct (roster_row df ids i W Hids Hi) as [id Hid].
      exists id, (member id (loc (svf_mask res y) stu)).
      split; [assumption|]. split; [now apply flags_for_nth|].
      rewrite member_loc. split.
      * intros [j [sid [Hm [Hs K]]]].
        apply (svf_mask_true res y svf j Hsvf) in Hm.
        destruct Hm as [yv [v [Hyv [D [Hv Eb]]]]].
        exists j, sid, yv, v. repeat split; assumption.
      * intros [j [sid [yv [v [Hs [K [Hyv [D [Hv Eb]]]]]]]]].
        exists j, sid. split; [|split; assumption].
        apply (svf_mask_true res y svf j Hsvf).
        exists yv, v. repeat split; assumption.
Qed.

Lemma social_values_in_film_flag_witness :
  let out := fst (apply_prerequisites english_records english_roster) in
  (forall s, In (SetZero s)
               (body english_records [VStr "B"; VStr "A"] [VInt 8; VInt 11]) ->
     s = "Social Values in Film" /\ getitem english_records "SVF" = None) /\
  (getitem english_records "SVF" = None ->
   exists flags,
     getitem out "Social Values in Film" = Some flags /\
     List.length flags = nrows english_roster /\
     forall i, (i < nrows english_roster)%nat ->
       nth_error flags i = Some (VInt 0)) /\
  (forall svf, getitem english_records "SVF" = Some svf ->
   exists flags,
     getitem out "Social Values in Film" = Some flags /\
     forall i, (i < nrows english_roster)%nat ->
       exists id b,
         nth_error [VStr "S3"; VStr "S1"; VStr "S9"] i = Some id /\
         nth_error flags i = Some (VInt (Z.b2z b)) /\
         (b = true <->
          exists j sid yv v,
            nth_error [VStr "S1"; VStr "S3"] j = Some sid /\
            same_key id sid = true /\
            nth_error [VInt 8; VInt 11] j = Some yv /\
            (py_eq yv (VInt 8) = true \/ py_eq yv (VInt 9) = true) /\
            nth_error svf j = Some v /\ py_eq v blank = true)).
Proof.
  apply (social_values_in_film_flag english_records english_roster
           [VStr "B"; VStr "A"] [VInt 8; VInt 11]
           [VStr "S1"; VStr "S3"] [VStr "S3"; VStr "S1"; VStr "S9"]).
  - split; [repeat constructor; simpl; tauto | repeat constructor].
  - reflexivity.
  - reflexivity.
  - reflexivity.
  - reflexivity.
Defined.

(** C9.  'English U34', 'English Language U34' and 'Literature U34' hold the
    same column.  A roster row gets 1 exactly when some record row of that
    student has a cell other than the empty string in one of ENGU12, ELANU12,
    LITU12 that the records have; a column the records lack contributes
    nothing. *)
Theorem english_u34_streams_share_one_mask res df cg y stu ids :
  wf res -> wf df ->
  getitem res "CG" = Some cg ->
  getitem res "Y" = Some y ->
  getitem res "StuID" = Some stu ->
  getitem df "Student ID" = Some ids ->
  let out := fst (apply_prerequisites res df) in
  exists flags,
    getitem out "English U34" = Some flags /\
    getitem out "English Language U34" = Some flags /\
    getitem out "Literature U34" = Some flags /\
    forall i, (i < nrows df)%nat ->
      exists id b,
        nth_error ids i = Some id /\
        nth_error flags i = Some (VInt (Z.b2z b)) /\
        (b = true <->
         exists j sid col s v,
           nth_error stu j = Some sid /\ same_key id sid = true /\
           In col ["ENGU12"; "ELANU12"; "LITU12"] /\
           getitem res col = Some s /\
           nth_error s j = Some v /\ py_eq v blank = false).
Proof.
  intros Wr W Hcg Hy Hstu Hids.
  rewrite (apply_ok res df cg y stu ids Hcg Hy Hstu Hids). cbn [fst].
  destruct (english_stmts_in_body res cg y) as [H1 [H2 H3]].
  pose proof (NoDup_targets_body res cg y) as ND.
  exists (flags_for stu ids (mask_any_u12_english res)).
  split; [|split; [|split]].
  - apply (getitem_write_all_in stu ids _ _ df ND H1).
  - apply (getitem_write_all_in stu ids _ _ df ND H2).
  - apply (getitem_write_all_in stu ids _ _ df ND H3).
  - intros i Hi. destruct (roster_row df ids i W Hids Hi) as [id Hid].
    exists id, (member id (loc (mask_any_u12_english res) stu)).
    split; [assumption|]. split; [now apply flags_for_nth|].
    rewrite member_loc. unfold mask_any_u12_english. split.
    + intros [j [sid [Hm [Hs K]]]].
      apply (any_present_filled_true res _ j Wr) in Hm.
      destruct Hm as [col [s [v [Hc [Hg [Hv Eb]]]]]].
      exists j, sid, col, s, v. repeat split; assumption.
    + intros [j [sid [col [s [v [Hs [K [Hc [Hg [Hv Eb]]]]]]]]]].
      exists j, sid. split; [|split; assumption].
      apply (any_present_filled_true res _ j Wr).
      exists col, s, v. repeat split; assumption.
Qed.

Lemma english_u34_streams_share_one_mask_witness :
  let out := fst (apply_prerequisites english_records english_roster) in
  exists flags,
    getitem out "English U34" = Some flags /\
    getitem out "English Language U34" = Some flags /\
    getitem out "Literature U34" = Some flags /\
    forall i, (i < nrows english_roster)%nat ->
      exists id b,
        nth_error [VStr "S3"; VStr "S1"; VStr "S9"] i = Some id /\
        nth_error flags i = Some (VInt (Z.b2z b)) /\
        (b = true <->
         exists j sid col s v,
           nth_error [VStr "S1"; VStr "S3"] j = Some sid /\
           same_key id sid = true /\
           In col ["ENGU12"; "ELANU12"; "LITU12"] /\
           getitem english_records col = Some s /\
           nth_error s j = Some v /\ py_eq v blank = false).
Proof.
  apply (english_u34_streams_share_one_mask english_records english_roster
           [VStr "B"; VStr "A"] [VInt 8; VInt 11]
           [VStr "S1"; VStr "S3"] [VStr "S3"; VStr "S1"; VStr "S9"]).
  - split; [|repeat constructor].
    apply nodupb_NoDup. reflexivity.
  - split; [repeat constructor; simpl; tauto | repeat constructor].
  - reflexivity.
  - reflexivity.
  - reflexivity.
  - reflexivity.
Defined.

(** ** What the run leaves of the roster *)

Lemma filter_fresh_snoc (names : list string) c l :
  ~ In c l ->
  filter (fun s => negb (string_mem s (names ++ [c]))) l =
  filter (fun s => negb (string_mem s names)) l.
Proof.
  intros N. apply filter_ext_in. intros s Hs. f_equal.
  unfold string_mem. rewrite existsb_app. simpl.
  rewrite orb_false_r.
  destruct (String.eqb s c) eqn:E; [|now rewrite orb_false_r].
  apply String.eqb_eq in E. subst. contradiction.
Qed.

Lemma names_write_all stu ids l : forall d,
  NoDup (map target l) ->
  map fst (columns (write_all stu ids l d)) =
  (map fst (columns d) ++
   filter (fun s => negb (string_mem s (map fst (columns d))))
          (map target l))%list.
Proof.
  induction l as [|st l IH]; intros d ND.
  - simpl. now rewrite app_nil_r.
  - simpl in ND. inversion ND as [|? ? Hfresh ND']. subst.
    change (write_all stu ids (st :: l) d)
      with (write_all stu ids l
              (setitem d (target st) (written stu ids (nrows d) st))).
    rewrite IH by assumption. cbn [setitem columns map filter].
    rewrite names_assign.
    destruct (string_mem (target st) (map fst (columns d))) eqn:E;
      cbn [negb].
    + reflexivity.
    + rewrite <- app_assoc. cbn [app]. f_equal.
      rewrite filter_fresh_snoc by assumption.
      destruct (string_mem (target st)
                  (map fst (columns d) ++ [target st])) eqn:E'.
      * reflexivity.
      * exfalso. apply string_mem_false in E'. apply E'.
        apply in_or_app. right. now left.
Qed.

Lemma frame_write_all (keep : string -> bool) stu ids l : forall d,
  (forall st, In st l -> keep (target st) = false) ->
  filter (fun kv => keep (fst kv)) (columns (write_all stu ids l d)) =
  filter (fun kv => keep (fst kv)) (columns d).
Proof.
  induction l as [|st l IH]; intros d H; [reflexivity|].
  change (write_all stu ids (st :: l) d)
    with (write_all stu ids l
            (setitem d (target st) (written stu ids (nrows d) st))).
  rewrite IH by (intros st' Hin; apply H; now right).
  cbn [setitem columns]. apply filter_assign. apply H. now left.
Qed.

Lemma NoDup_snoc (l : list string) c : NoDup l -> ~ In c l -> NoDup (l ++ [c]).
Proof.
  induction 1 as [|x l Hx ND IH]; intros N; simpl.
  - constructor; [tauto | constructor].
  - constructor.
    + intros Hin. apply in_app_or in Hin. destruct Hin as [Hin|[E|[]]].
      * contradiction.
      * subst. apply N. now left.
    + apply IH. intros Hin. apply N. now right.
Qed.

Lemma wf_setitem d c s :
  wf d -> List.length s = nrows d -> wf (setitem d c s).
Proof.
  intros [ND L] Hs. split; cbn [setitem columns nrows].
  - rewrite names_assign.
    destruct (string_mem c (map fst (columns d))) eqn:E; [assumption|].
    apply NoDup_snoc; [assumption | now apply string_mem_false].
  - now apply length_assign_all.
Qed.

Lemma wf_write_all stu ids l :
  forall d,
    wf d -> List.length ids = nrows d -> wf (write_all stu ids l d).
Proof.
  induction l as [|st l IH]; intros d W L; [assumption|].
  change (write_all stu ids (st :: l) d)
    with (write_all stu ids l
            (setitem d (target st) (written stu ids (nrows d) st))).
  apply IH; [|assumption].
  apply wf_setitem; [assumption|].
  rewrite <- L. apply length_written.
Qed.

Lemma written_is_flag stu ids n st :
  Forall (fun v => v = VInt 0 \/ v = VInt 1) (written stu ids n st).
Proof.
  apply Forall_forall. intros v Hv. destruct st as [m c | c]; simpl in Hv.
  - unfold flags_for, astype_int in Hv. apply in_map_iff in Hv.
    destruct Hv as [b [E _]]. subst. destruct b; auto.
  - apply repeat_spec in Hv. auto.
Qed.

(** C7, as amended.  The run succeeds and hands back the roster it was given,
    with the same rows in the same order.  Its columns are the old ones in
    their old order, followed by the catalog subjects the roster did not
    have, in catalog order.  Every column whose name is not a catalog subject
    keeps its cells; every catalog subject's column, new or overwritten in
    place, holds one 0/1 integer per row. *)
Theorem roster_frame res df cg y stu ids :
  wf df ->
  getitem res "CG" = Some cg ->
  getitem res "Y" = Some y ->
  getitem res "StuID" = Some stu ->
  getitem df "Student ID" = Some ids ->
  let out := fst (apply_prerequisites res df) in
  snd (apply_prerequisites res df) = inr out /\
  wf out /\
  nrows out = nrows df /\
  map fst (columns out) =
    (map fst (columns df) ++
     filter (fun s => negb (string_mem s (map fst (columns df)))) catalog)%list
  /\
  filter (fun kv => negb (string_mem (fst kv) catalog)) (columns out) =
    filter (fun kv => negb (string_mem (fst kv) catalog)) (columns df) /\
  (forall c, ~ In c catalog -> getitem out c = getitem df c) /\
  (forall s, In s catalog ->
     exists flags,
       getitem out s = Some flags /\
       List.length flags = nrows df /\
       Forall (fun v => v = VInt 0 \/ v = VInt 1) flags).
Proof.
  intros W Hcg Hy Hstu Hids.
  rewrite (apply_ok res df cg y stu ids Hcg Hy Hstu Hids). cbn [fst snd].
  pose proof (getitem_length df _ ids W Hids) as Hlen.
  pose proof (NoDup_targets_body res cg y) as ND.
  split; [reflexivity|]. split; [now apply wf_write_all|].
  split; [apply nrows_write_all|]. split; [|split; [|split]].
  - rewrite names_write_all by assumption. now rewrite targets_body.
  - apply (frame_write_all (fun k => negb (string_mem k catalog))).
    intros st Hin. apply negb_false_iff, string_mem_In.
    rewrite <- (targets_body res cg y). now apply in_map.
  - intros c Hc. apply getitem_write_all_other.
    now rewrite targets_body.
  - intros s Hs.
    destruct (subject_has_stmt res cg y s Hs) as [st [Hin Ht]].
    exists (written stu ids (nrows df) st). split; [|split].
    + rewrite <- Ht. now apply getitem_write_all_in.
    + rewrite <- Hlen. apply length_written.
    + apply written_is_flag.
Qed.

Lemma roster_frame_witness :
  let out := fst (apply_prerequisites s1_records media_roster) in
  snd (apply_prerequisites s1_records media_roster) = inr out /\
  wf out /\
  nrows out = nrows media_roster /\
  map fst (columns out) =
    (map fst (columns media_roster) ++
     filter (fun s => negb (string_mem s (map fst (columns media_roster))))
            catalog)%list /\
  filter (fun kv => negb (string_mem (fst kv) catalog)) (columns out) =
    filter (fun kv => negb (string_mem (fst kv) catalog))
           (columns media_roster) /\
  (forall c, ~ In c catalog -> getitem out c = getitem media_roster c) /\
  (forall s, In s catalog ->
     exists flags,
       getitem out s = Some flags /\
       List.length flags = nrows media_roster /\
       Forall (fun v => v = VInt 0 \/ v = VInt 1) flags).
Proof.
  apply (roster_frame s1_records media_roster
           [VStr "B"] [VInt 6] [VStr "S1"] [VStr "S1"]).
  - split; [|repeat constructor].
    apply nodupb_NoDup. reflexivity.
  - reflexivity.
  - reflexivity.
  - reflexivity.
  - reflexivity.
Defined.

(** C7 as stated fails: a roster that already has a column named after a
    catalog subject does not keep that column's cells, and gets no new
    column for it. *)
Lemma existing_subject_column_is_overwritten :
  ~ (forall res df cg y stu ids,
       wf res -> wf df ->
       getitem res "CG" = Some cg ->
       getitem res "Y" = Some y ->
       getitem res "StuID" = Some stu ->
       getitem df "Student ID" = Some ids ->
       forall c cells,
         getitem df c = Some cells ->
         getitem (fst (apply_prerequisites res df)) c = Some cells).
Proof.
  intros H.
  specialize (H s1_records media_roster
                [VStr "B"] [VInt 6] [VStr "S1"] [VStr "S1"]).
  assert (E : getitem (fst (apply_prerequisites s1_records media_roster))
                "Media" = Some [VStr "club"]).
  { apply H; try reflexivity.
    - split; [apply nodupb_NoDup; reflexivity | repeat constructor].
    - split; [apply nodupb_NoDup; reflexivity | repeat constructor]. }
  vm_compute in E. discriminate.
Qed.

(** ** Removing an optional column from the records *)

Lemma opt_drop_ne c res k :
  k <> c -> opt (drop_column c res) k = opt res k.
Proof.
  intros N. unfold opt, sget. now rewrite getitem_drop_ne by assumption.
Qed.

Lemma has_col_drop_ne c res k :
  k <> c -> has_col (drop_column c res) k = has_col res k.
Proof.
  intros N. unfold has_col. now rewrite getitem_drop_ne by assumption.
Qed.

Lemma any_present_filled_drop c res cols :
  ~ In c cols ->
  any_present_filled (drop_column c res) cols = any_present_filled res cols.
Proof.
  unfold any_present_filled.
  change (all_false (drop_column c res)) with (all_false res).
  generalize (all_false res).
  induction cols as [|k cols IH]; intros acc N; [reflexivity|].
  simpl in *. rewrite getitem_drop_ne by (intros E; apply N; now left).
  apply IH. tauto.
Qed.

Ltac unfold_masks :=
  unfold art_high, hum_high, mat_high, sci_high, pe_high, mat_high10,
    mat_mid10, sci_mid10, sci_minmid10, sci_min10, svf_mask,
    mask_any_u12_english.

(** [k] is named in the rule, so it is not the column [c] that the rule does
    not name. *)
Ltac named_column H :=
  let E := fresh "E" in
  intro E; apply H; rewrite <- E; apply string_mem_In; vm_compute;
  reflexivity.

Ltac agree c res :=
  split; [reflexivity|];
  let H := fresh "H" in
  intro H; cbn [target] in H; unfold_masks;
  repeat match goal with
    | |- context [opt (drop_column c res) ?k] =>
        rewrite (opt_drop_ne c res k) by named_column H
    | |- context [any_present_filled (drop_column c res) ?cols] =>
        rewrite (any_present_filled_drop c res cols) by exact H
    end;
  reflexivity.

Ltac peel c res :=
  repeat (apply Forall2_cons; [agree c res|]); try apply Forall2_nil.

Section Drop.

Variables (c : string) (res : DataFrame) (CG Y : Series).

Lemma year7_drop :
  Forall2 (agree_off c) (year7 res CG Y) (year7 (drop_column c res) CG Y).
Proof. unfold year7. cbn [map app]. peel c res. Qed.

Lemma year8_drop :
  Forall2 (agree_off c) (year8 res CG Y) (year8 (drop_column c res) CG Y).
Proof. unfold year8. cbn [map app]. peel c res. Qed.

Lemma svf_drop :
  Forall2 (agree_off c)
    (if has_col res "SVF"
     then [SetFlag (svf_mask res Y) "Social Values in Film"]
     else [SetZero "Social Values in Film"])
    (if has_col (drop_column c res) "SVF"
     then [SetFlag (svf_mask (drop_column c res) Y) "Social Values in Film"]
     else [SetZero "Social Values in Film"]).
Proof.
  destruct (String.eqb "SVF" c) eqn:E.
  - apply String.eqb_eq in E.
    assert (R : forall a b,
               target a = "Social Values in Film" ->
               target b = "Social Values in Film" -> agree_off c a b).
    { intros a b Ha Hb. split; [congruence|]. rewrite Ha. intros N.
      exfalso. apply N. rewrite <- E. apply string_mem_In. vm_compute.
      reflexivity. }
    destruct (has_col res "SVF"), (has_col (drop_column c res) "SVF");
      (apply Forall2_cons; [apply R; reflexivity | apply Forall2_nil]).
  - apply String.eqb_neq in E. rewrite (has_col_drop_ne c res _ E).
    destruct (has_col res "SVF"); apply Forall2_cons; try apply Forall2_nil.
    + split; [reflexivity|]. intros _. unfold svf_mask.
      now rewrite (opt_drop_ne c res _ E).
    + split; reflexivity.
Qed.

Lemma year9_drop :
  Forall2 (agree_off c) (year9 res CG Y) (year9 (drop_column c res) CG Y).
Proof.
  unfold year9. cbn [map app]. peel c res.
  apply Forall2_app; [apply svf_drop|]. peel c res.
Qed.

Lemma year10_drop :
  Forall2 (agree_off c) (year10 res CG Y) (year10 (drop_column c res) CG Y).
Proof. unfold year10. cbn [map app]. peel c res. Qed.

Lemma unit12_drop :
  Forall2 (agree_off c) (unit12 res CG Y) (unit12 (drop_column c res) CG Y).
Proof. unfold unit12. cbn [map app]. peel c res. Qed.

Lemma unit34_drop :
  Forall2 (agree_off c) (unit34 res CG Y) (unit34 (drop_column c res) CG Y).
Proof. unfold unit34. peel c res. Qed.

Lemma body_drop :
  Forall2 (agree_off c) (body res CG Y) (body (drop_column c res) CG Y).
Proof.
  unfold body.
  apply Forall2_app; [apply year7_drop|].
  apply Forall2_app; [apply year8_drop|].
  apply Forall2_app; [apply year9_drop|].
  apply Forall2_app; [apply year10_drop|].
  apply Forall2_app; [apply unit12_drop | apply unit34_drop].
Qed.

End Drop.

Lemma agree_lookup c l1 l2 :
  Forall2 (agree_off c) l1 l2 ->
  forall s, In s (map target l1) ->
  exists a b,
    In a l1 /\ In b l2 /\ target a = s /\ target b = s /\
    (~ In c (reads s) -> a = b).
Proof.
  induction 1 as [|a b l1 l2 [Ht Hab] F IH]; intros s Hs; [contradiction|].
  simpl in Hs. destruct Hs as [E | Hs].
  - exists a, b. subst s. repeat split; try (now left); auto.
  - destruct (IH s Hs) as [a' [b' [Ha [Hb H]]]].
    exists a', b'. repeat split; try (now right); tauto.
Qed.

Lemma required_kept c res k :
  ~ In c required -> In k required ->
  getitem (drop_column c res) k = getitem res k.
Proof.
  intros N Hk. apply getitem_drop_ne. intros E. subst. contradiction.
Qed.

(** C2, as amended.  Removing a column other than the three required ones
    from the records leaves the flags of every catalog subject whose rule
    does not name that column as they were. *)
Theorem dropping_column_keeps_unrelated_flags res df c s :
  ~ In c required ->
  In s catalog ->
  ~ In c (reads s) ->
  getitem (fst (apply_prerequisites (drop_column c res) df)) s =
  getitem (fst (apply_prerequisites res df)) s.
Proof.
  intros Hc Hs Hr.
  assert (Kcg := required_kept c res "CG" Hc ltac:(simpl; tauto)).
  assert (Ky := required_kept c res "Y" Hc ltac:(simpl; tauto)).
  assert (Kstu := required_kept c res "StuID" Hc ltac:(simpl; tauto)).
  destruct (getitem res "CG") as [cg|] eqn:Hcg;
    [|destruct (apply_fails res df) as [k E]; [tauto|];
      destruct (apply_fails (drop_column c res) df) as [k' E']; [tauto|];
      now rewrite E, E'].
  destruct (getitem res "Y") as [y|] eqn:Hy;
    [|destruct (apply_fails res df) as [k E]; [tauto|];
      destruct (apply_fails (drop_column c res) df) as [k' E']; [tauto|];
      now rewrite E, E'].
  destruct (getitem res "StuID") as [stu|] eqn:Hstu;
    [|destruct (apply_fails res df) as [k E]; [tauto|];
      destruct (apply_fails (drop_column c res) df) as [k' E']; [tauto|];
      now rewrite E, E'].
  destruct (getitem df "Student ID") as [ids|] eqn:Hids;
    [|destruct (apply_fails res df) as [k E]; [tauto|];
      destruct (apply_fails (drop_column c res) df) as [k' E']; [tauto|];
      now rewrite E, E'].
  rewrite (apply_ok res df cg y stu ids Hcg Hy Hstu Hids).
  rewrite (apply_ok (drop_column c res) df cg y stu ids Kcg Ky Kstu Hids).
  cbn [fst].
  assert (Hin : In s (map target (body res cg y)))
    by now rewrite targets_body.
  destruct (agree_lookup c _ _ (body_drop c res cg y) s Hin)
    as [a [b [Ha [Hb [Ta [Tb Hab]]]]]].
  specialize (Hab Hr). subst b. rewrite <- Ta.
  rewrite !getitem_write_all_in;
    auto using NoDup_targets_body.
Qed.

Lemma dropping_column_keeps_unrelated_flags_witness :
  getitem (fst (apply_prerequisites (drop_column "MAT2" mat2_records)
                  s1_roster)) "Research Science 1" =
  getitem (fst (apply_prerequisites mat2_records s1_roster))
    "Research Science 1".
Proof.
  apply (dropping_column_keeps_unrelated_flags
           mat2_records s1_roster "MAT2" "Research Science 1").
  - apply string_mem_false. reflexivity.
  - apply string_mem_In. reflexivity.
  - apply string_mem_false. reflexivity.
Defined.

(** C2 as stated fails: a subject other than 'Social Values in Film' loses
    its flag when a column its rule names is removed.  With MAT2 in the
    records the year-8 student with an A qualifies for 'Advanced
    Mathematics 1'; without the column [sget] yields [False] and the student
    does not. *)
Lemma dropping_a_named_column_changes_flags :
  ~ (forall res df c s,
       wf res -> wf df ->
       has_col res "StuID" = true -> has_col res "Y" = true ->
       has_col res "CG" = true -> has_col df "Student ID" = true ->
       ~ In c required ->
       In s catalog ->
       s <> "Social Values in Film" ->
       getitem (fst (apply_prerequisites (drop_column c res) df)) s =
       getitem (fst (apply_prerequisites res df)) s).
Proof.
  intros H.
  specialize (H mat2_records s1_roster "MAT2" "Advanced Mathematics 1").
  assert (E : getitem (fst (apply_prerequisites
                              (drop_column "MAT2" mat2_records) s1_roster))
                "Advanced Mathematics 1" =
              getitem (fst (apply_prerequisites mat2_records s1_roster))
                "Advanced Mathematics 1").
  { apply H; try reflexivity.
    - split; [apply nodupb_NoDup; reflexivity | repeat constructor].
    - split; [apply nodupb_NoDup; reflexivity | repeat constructor].
    - apply string_mem_false. reflexivity.
    - apply string_mem_In. reflexivity.
    - discriminate. }
  vm_compute in E. discriminate.
Qed.

(** * Further properties of the helpers and of the rules *)

(** ** [sget] *)

(** X1.  On a well-formed records table [sget] always yields a series
    aligned to the index, whether the column exists or not. *)
Theorem sget_aligned res col default :
  wf res -> List.length (sget res col default) = nrows res.
Proof.
  intros W. unfold sget. destruct (getitem res col) as [s|] eqn:E.
  - eapply getitem_length; eauto.
  - apply repeat_length.
Qed.

Lemma sget_aligned_witness :
  List.length (sget english_records "LITU12" (VBool false)) =
  nrows english_records.
Proof.
  apply (sget_aligned english_records "LITU12" (VBool false)).
  split; [apply nodupb_NoDup; reflexivity | repeat constructor].
Defined.

Lemma absent_column_tests_witness :
  isin_str (opt s1_records "MAT2") ["A"; "A+"] =
    repeat false (nrows s1_records) /\
  eq_scalar (opt s1_records "MAT2") blank = repeat false (nrows s1_records) /\
  ne_scalar (opt s1_records "MAT2") blank = repeat true (nrows s1_records).
Proof.
  apply (absent_column_tests s1_records "MAT2" ["A"; "A+"]). reflexivity.
Defined.

(** ** [set_flag] *)

Lemma set_flag_ok res m c d stu ids :
  getitem res "StuID" = Some stu ->
  getitem d "Student ID" = Some ids ->
  set_flag res m c d = (setitem d c (flags_for stu ids m), inr tt).
Proof.
  intros Hs Hi. unfold set_flag, bind, col_of, df_get, df_set, ret.
  now rewrite Hs, Hi.
Qed.

(** X3.  One call of [set_flag] succeeds exactly when the records have
    [StuID] and the roster has [Student ID]; when it fails the roster is
    untouched, and when it succeeds only the named column can differ: the
    row count and every other column are as before. *)
Theorem set_flag_touches_one_column res mask c d :
  (snd (set_flag res mask c d) = inr tt <->
   has_col res "StuID" = true /\ has_col d "Student ID" = true) /\
  (snd (set_flag res mask c d) <> inr tt -> fst (set_flag res mask c d) = d) /\
  nrows (fst (set_flag res mask c d)) = nrows d /\
  forall c', c' <> c ->
    getitem (fst (set_flag res mask c d)) c' = getitem d c'.
Proof.
  unfold set_flag, bind, col_of, df_get, df_set, ret, raise, has_col.
  destruct (getitem res "StuID") as [stu|]; cbn [fst snd].
  - destruct (getitem d "Student ID") as [ids|]; cbn [fst snd].
    + split; [split; auto|]. split; [congruence|]. split; [reflexivity|].
      intros c' N. apply getitem_setitem_ne. congruence.
    + split; [split; [discriminate | intros [_ H]; discriminate]|].
      auto.
  - split; [split; [discriminate | intros [H _]; discriminate]|].
    auto.
Qed.

Lemma flag_is_one stu ids m i id :
  nth_error ids i = Some id ->
  (nth_error (flags_for stu ids m) i = Some (VInt 1) <->
   member id (loc m stu) = true).
Proof.
  intros H. rewrite (flags_for_nth stu ids m i id H).
  destruct (member id (loc m stu)); simpl; split; congruence.
Qed.

Lemma flag_row stu ids m i v :
  nth_error (flags_for stu ids m) i = Some v ->
  exists id, nth_error ids i = Some id.
Proof.
  unfold flags_for, astype_int, isin. rewrite !nth_error_map.
  destruct (nth_error ids i); [eauto | discriminate].
Qed.



(** X5.  A disjunction of two aligned masks flags exactly the roster rows
    that one of the two masks flags: the OR over a student's rows of an OR
    of predicates is the OR of the two flags. *)
Theorem set_flag_of_disjunction res m1 m2 c d stu ids :
  getitem res "StuID" = Some stu ->
  getitem d "Student ID" = Some ids ->
  List.length m1 = List.length m2 ->
  exists f f1 f2,
    getitem (fst (set_flag res (mask_or m1 m2) c d)) c = Some f /\
    getitem (fst (set_flag res m1 c d)) c = Some f1 /\
    getitem (fst (set_flag res m2 c d)) c = Some f2 /\
    forall i,
      nth_error f i = Some (VInt 1) <->
      nth_error f1 i = Some (VInt 1) \/ nth_error f2 i = Some (VInt 1).
Proof.
  intros Hs Hi L.
  rewrite !(set_flag_ok res _ c d stu ids Hs Hi). cbn [fst].
  exists (flags_for stu ids (mask_or m1 m2)),
         (flags_for stu ids m1), (flags_for stu ids m2).
  rewrite !getitem_setitem_eq. repeat (split; [reflexivity|]).
  intros i. destruct (nth_error ids i) as [id|] eqn:Hid.
  - rewrite !(flag_is_one stu ids _ i id Hid), !member_loc. split.
    + intros [j [sid [Hm H]]]. apply (mask_or_true_aligned m1 m2 j L) in Hm.
      destruct Hm as [Hm|Hm]; [left | right]; exists j, sid; auto.
    + intros [[j [sid [Hm H]]]|[j [sid [Hm H]]]]; exists j, sid;
        (split; [apply (mask_or_true_aligned m1 m2 j L); auto | exact H]).
  - split.
    + intros H. destruct (flag_row _ _ _ _ _ H) as [id E]. congruence.
    + intros [H|H]; destruct (flag_row _ _ _ _ _ H) as [id E]; congruence.
Qed.

Lemma set_flag_of_disjunction_witness :
  exists f f1 f2,
    getitem (fst (set_flag s1_records (mask_or [false] [true]) "Media"
                    s1_roster)) "Media" = Some f /\
    getitem (fst (set_flag s1_records [false] "Media" s1_roster)) "Media" =
      Some f1 /\
    getitem (fst (set_flag s1_records [true] "Media" s1_roster)) "Media" =
      Some f2 /\
    forall i,
      nth_error f i = Some (VInt 1) <->
      nth_error f1 i = Some (VInt 1) \/ nth_error f2 i = Some (VInt 1).
Proof.
  apply (set_flag_of_disjunction s1_records [false] [true] "Media" s1_roster
           [VStr "S1"] [VStr "S1"]); reflexivity.
Defined.

(** X6.  The flag depends on the roster row only through its [Student ID]:
    two roster rows naming the same student get the same cell. *)
Theorem set_flag_same_student_same_flag res m c d stu ids i i' id id' :
  getitem res "StuID" = Some stu ->
  getitem d "Student ID" = Some ids ->
  nth_error ids i = Some id ->
  nth_error ids i' = Some id' ->
  same_key id id' = true ->
  exists f,
    getitem (fst (set_flag res m c d)) c = Some f /\
    nth_error f i = nth_error f i'.
Proof.
  intros Hs Hi H H' K.
  rewrite (set_flag_ok res m c d stu ids Hs Hi). cbn [fst].
  exists (flags_for stu ids m). rewrite getitem_setitem_eq.
  split; [reflexivity|].
  rewrite (flags_for_nth stu ids m i id H).
  rewrite (flags_for_nth stu ids m i' id' H'). do 3 f_equal.
  assert (K' : same_key id' id = true).
  { apply same_key_norm. apply same_key_norm in K. congruence. }
  destruct (member id (loc m stu)) eqn:E, (member id' (loc m stu)) eqn:E';
    try reflexivity.
  - rewrite (same_key_member id' id _ K' E) in E'. discriminate.
  - rewrite (same_key_member id id' _ K E') in E. discriminate.
Qed.

Lemma set_flag_same_student_same_flag_witness :
  exists f,
    getitem (fst (set_flag s1_records [true] "Media" twice_roster)) "Media" =
      Some f /\
    nth_error f 0 = nth_error f 2.
Proof.
  apply (set_flag_same_student_same_flag s1_records [true] "Media"
           twice_roster [VStr "S1"] [VStr "S1"; VStr "S7"; VStr "S1"]
           0%nat 2%nat (VStr "S1") (VStr "S1")); reflexivity.
Defined.

(** ** The whole run *)

(** X7.  The run fails exactly when one of the four required columns is
    missing, with the [KeyError] of the first one it meets (CG, then Y, then
    StuID, then the roster's Student ID) and the roster untouched; otherwise
    it succeeds and returns the roster it has written to. *)
Theorem run_reports_first_missing_column res df :
  match first_missing res df with
  | Some key => apply_prerequisites res df = (df, inl (KeyError key))
  | None =>
      apply_prerequisites res df =
      (fst (apply_prerequisites res df), inr (fst (apply_prerequisites res df)))
  end.
Proof.
  unfold first_missing, has_col.
  destruct (getitem res "CG") as [cg|] eqn:Hcg; cbn [negb];
    [|unfold apply_prerequisites, col_of; rewrite Hcg; reflexivity].
  destruct (getitem res "Y") as [y|] eqn:Hy; cbn [negb];
    [|unfold apply_prerequisites, col_of; rewrite Hcg, Hy; reflexivity].
  destruct (getitem res "StuID") as [stu|] eqn:Hstu; cbn [negb].
  - destruct (getitem df "Student ID") as [ids|] eqn:Hids; cbn [negb].
    + rewrite (apply_ok res df cg y stu ids Hcg Hy Hstu Hids). cbn [fst].
      reflexivity.
    + unfold apply_prerequisites, col_of. rewrite Hcg, Hy.
      change (bind (run_all res (body res cg y)) (fun _ => return_df) df =
              (df, inl (KeyError "Student ID"))).
      destruct (body_head res cg y) as [rest ->].
      cbn [run_all run_stmt].
      unfold set_flag, bind, col_of, df_get, raise, ret.
      rewrite Hstu, Hids. reflexivity.
  - unfold apply_prerequisites, col_of. rewrite Hcg, Hy.
    change (bind (run_all res (body res cg y)) (fun _ => return_df) df =
            (df, inl (KeyError "StuID"))).
    destruct (body_head res cg y) as [rest ->].
    cbn [run_all run_stmt].
    unfold set_flag, bind, col_of, df_get, raise, ret.
    rewrite Hstu. reflexivity.
Qed.

Lemma write_all_permuted stu ids l l' d c :
  Permutation l l' -> NoDup (map target l) ->
  getitem (write_all stu ids l' d) c = getitem (write_all stu ids l d) c.
Proof.
  intros P ND.
  assert (ND' : NoDup (map target l')).
  { eapply Permutation_NoDup; [apply Permutation_map; exact P | exact ND]. }
  destruct (in_dec string_dec c (map target l)) as [Hin|Hout].
  - apply in_map_iff in Hin. destruct Hin as [st [E Hin]]. subst c.
    rewrite (getitem_write_all_in stu ids st l d ND Hin).
    apply getitem_write_all_in; [assumption|].
    eapply Permutation_in; eauto.
  - rewrite (getitem_write_all_other stu ids c l d Hout).
    apply getitem_write_all_other. intros Hin. apply Hout.
    eapply Permutation_in; [apply Permutation_map, Permutation_sym, P|].
    exact Hin.
Qed.

(** X8.  The statements of the body do not depend on one another: run in any
    other order they succeed just the same and leave the same cells in every
    column (only the order in which new columns are appended can differ). *)
Theorem statements_commute res cg y stu ids d l' :
  getitem res "StuID" = Some stu ->
  getitem d "Student ID" = Some ids ->
  Permutation (body res cg y) l' ->
  snd (run_all res l' d) = inr tt /\
  snd (run_all res (body res cg y) d) = inr tt /\
  forall c,
    getitem (fst (run_all res l' d)) c =
    getitem (fst (run_all res (body res cg y) d)) c.
Proof.
  intros Hs Hi P.
  assert (N' : ~ In "Student ID" (map target l')).
  { intros Hin. apply (not_student_id_body res cg y).
    eapply Permutation_in; [apply Permutation_map, Permutation_sym, P|].
    exact Hin. }
  rewrite (run_all_ok res stu Hs l' d ids Hi N').
  rewrite (run_all_ok res stu Hs _ d ids Hi (not_student_id_body res cg y)).
  cbn [fst snd]. split; [reflexivity|]. split; [reflexivity|].
  intros c. apply write_all_permuted; [assumption|].
  apply NoDup_targets_body.
Qed.

Lemma statements_commute_witness :
  snd (run_all s1_records (rev (body s1_records [VStr "B"] [VInt 6]))
         s1_roster) = inr tt /\
  snd (run_all s1_records (body s1_records [VStr "B"] [VInt 6]) s1_roster) =
    inr tt /\
  forall c,
    getitem (fst (run_all s1_records
                    (rev (body s1_records [VStr "B"] [VInt 6])) s1_roster)) c =
    getitem (fst (run_all s1_records (body s1_records [VStr "B"] [VInt 6])
                    s1_roster)) c.
Proof.
  apply (statements_commute s1_records [VStr "B"] [VInt 6]
           [VStr "S1"] [VStr "S1"] s1_roster).
  - reflexivity.
  - reflexivity.
  - apply Permutation_rev.
Defined.

Lemma flags_none stu ids m :
  loc m stu = [] -> flags_for stu ids m = repeat (VInt 0) (List.length ids).
Proof.
  intros H. unfold flags_for, astype_int, isin. rewrite H.
  induction ids as [|v t IH]; simpl; [reflexivity|].
  f_equal. exact IH.
Qed.

Lemma loc_nil m : loc m [] = [].
Proof. now destruct m. Qed.

Lemma loc_no_true m : forall s,
  (forall j, nth_error m j <> Some true) -> loc m s = [].
Proof.
  induction m as [|b m IH]; intros [|v s] H; try reflexivity.
  simpl. destruct b.
  - exfalso. apply (H 0%nat). reflexivity.
  - apply IH. intros j. apply (H (S j)).
Qed.

(** X9.  With no record row at all (the required columns present but empty)
    every catalog subject is 0 in every roster row. *)
Theorem no_record_rows_no_flags res df cg y ids :
  wf df ->
  getitem res "CG" = Some cg ->
  getitem res "Y" = Some y ->
  getitem res "StuID" = Some [] ->
  getitem df "Student ID" = Some ids ->
  forall s, In s catalog ->
    getitem (fst (apply_prerequisites res df)) s =
    Some (repeat (VInt 0) (nrows df)).
Proof.
  intros W Hcg Hy Hstu Hids s Hs.
  rewrite (apply_ok res df cg y [] ids Hcg Hy Hstu Hids). cbn [fst].
  destruct (subject_has_stmt res cg y s Hs) as [st [Hin Ht]].
  rewrite <- Ht.
  rewrite (getitem_write_all_in [] ids st _ df
             (NoDup_targets_body res cg y) Hin).
  f_equal. destruct st as [m c | c]; simpl; [|reflexivity].
  rewrite flags_none by apply loc_nil.
  now rewrite (getitem_length df _ ids W Hids).
Qed.

Lemma no_record_rows_no_flags_witness :
  getitem (fst (apply_prerequisites empty_records twice_roster))
    "Biology U34" =
  Some (repeat (VInt 0) (nrows twice_roster)).
Proof.
  apply (no_record_rows_no_flags empty_records twice_roster [] []
           [VStr "S1"; VStr "S7"; VStr "S1"]).
  - split; [apply nodupb_NoDup; reflexivity | repeat constructor].
  - reflexivity.
  - reflexivity.
  - reflexivity.
  - reflexivity.
  - apply string_mem_In. reflexivity.
Defined.

(** X10.  The separate branch of lines 148-151 changes nothing: when the
    records have no SVF column, [set_flag] with the rule of line 149 would
    write the very column of zeros that line 151 assigns. *)
Theorem svf_branch_agrees_with_its_rule res df y stu ids :
  wf df ->
  getitem res "SVF" = None ->
  getitem res "StuID" = Some stu ->
  getitem df "Student ID" = Some ids ->
  set_flag res (svf_mask res y) "Social Values in Film" df =
  df_set_scalar "Social Values in Film" (VInt 0) df.
Proof.
  intros W Habs Hs Hi.
  rewrite (set_flag_ok res _ _ df stu ids Hs Hi). unfold df_set_scalar.
  rewrite flags_none.
  - now rewrite (getitem_length df _ ids W Hi).
  - apply loc_no_true. intros j H. unfold svf_mask in H.
    apply mask_and_true in H. destruct H as [H _].
    apply eq_scalar_true in H. destruct H as [v [Hv E]].
    unfold opt, sget in Hv. rewrite Habs in Hv.
    apply nth_error_In, repeat_spec in Hv. subst v. discriminate.
Qed.

Lemma svf_branch_agrees_with_its_rule_witness :
  set_flag s1_records (svf_mask s1_records [VInt 6]) "Social Values in Film"
    twice_roster =
  df_set_scalar "Social Values in Film" (VInt 0) twice_roster.
Proof.
  apply (svf_branch_agrees_with_its_rule s1_records twice_roster [VInt 6]
           [VStr "S1"] [VStr "S1"; VStr "S7"; VStr "S1"]).
  - split; [apply nodupb_NoDup; reflexivity | repeat constructor].
  - reflexivity.
  - reflexivity.
  - reflexivity.
Defined.

(** ** Single rules *)

Lemma stmt_for_in s l st : stmt_for s l = Some st -> In st l /\ target st = s.
Proof.
  unfold stmt_for. intros H. apply find_some in H. destruct H as [H E].
  apply String.eqb_eq in E. auto.
Qed.

Lemma subject_column res df cg y stu ids s m :
  getitem res "CG" = Some cg ->
  getitem res "Y" = Some y ->
  getitem res "StuID" = Some stu ->
  getitem df "Student ID" = Some ids ->
  stmt_for s (body res cg y) = Some (SetFlag m s) ->
  getitem (fst (apply_prerequisites res df)) s = Some (flags_for stu ids m).
Proof.
  intros Hcg Hy Hstu Hids H. apply stmt_for_in in H. destruct H as [Hin _].
  rewrite (apply_ok res df cg y stu ids Hcg Hy Hstu Hids). cbn [fst].
  apply (getitem_write_all_in stu ids (SetFlag m s) _ df
           (NoDup_targets_body res cg y) Hin).
Qed.

Ltac find_stmt :=
  unfold stmt_for, body, year9;
  match goal with
  | |- context [has_col ?r "SVF"] => destruct (has_col r "SVF")
  end;
  reflexivity.

Lemma year_gate_stmt res cg y n names s :
  In (n, names) year_gates -> In s names ->
  stmt_for s (body res cg y) = Some (SetFlag (eq_scalar y (VInt n)) s).
Proof.
  intros Hg Hs. unfold year_gates in Hg. simpl in Hg.
  repeat (destruct Hg as [Hg|Hg];
          [injection Hg as <- <-; simpl in Hs;
           repeat (destruct Hs as [<-|Hs]; [find_stmt|]); contradiction|]).
  contradiction.
Qed.

(** X11.  A compulsory subject of the five year loops is 1 for a roster row
    exactly when the student has a record row at the year level the loop
    tests (6, 7, 8, 9 or 10); no grade is consulted. *)
Theorem compulsory_subject_follows_year res df cg y stu ids n names s :
  getitem res "CG" = Some cg ->
  getitem res "Y" = Some y ->
  getitem res "StuID" = Some stu ->
  getitem df "Student ID" = Some ids ->
  In (n, names) year_gates ->
  In s names ->
  exists flags,
    getitem (fst (apply_prerequisites res df)) s = Some flags /\
    forall i id, nth_error ids i = Some id ->
      (nth_error flags i = Some (VInt 1) <->
       exists j sid yv,
         nth_error stu j = Some sid /\ same_key id sid = true /\
         nth_error y j = Some yv /\ py_eq yv (VInt n) = true).
Proof.
  intros Hcg Hy Hstu Hids Hg Hs.
  exists (flags_for stu ids (eq_scalar y (VInt n))). split.
  - apply (subject_column res df cg y stu ids s _ Hcg Hy Hstu Hids).
    now apply year_gate_stmt with names.
  - intros i id Hid. rewrite (flag_is_one stu ids _ i id Hid), member_loc.
    split.
    + intros [j [sid [Hm [Hsid K]]]]. apply eq_scalar_true in Hm.
      destruct Hm as [yv [Hyv E]]. exists j, sid, yv. auto.
    + intros [j [sid [yv [Hsid [K [Hyv E]]]]]]. exists j, sid.
      split; [|auto]. apply eq_scalar_true. eauto.
Qed.

Lemma compulsory_subject_follows_year_witness :
  exists flags,
    getitem (fst (apply_prerequisites english_records english_roster))
      "Media" = Some flags /\
    forall i id,
      nth_error [VStr "S3"; VStr "S1"; VStr "S9"] i = Some id ->
      (nth_error flags i = Some (VInt 1) <->
       exists j sid yv,
         nth_error [VStr "S1"; VStr "S3"] j = Some sid /\
         same_key id sid = true /\
         nth_error [VInt 8; VInt 11] j = Some yv /\
         py_eq yv (VInt 7) = true).
Proof.
  apply (compulsory_subject_follows_year english_records english_roster
           [VStr "B"; VStr "A"] [VInt 8; VInt 11]
           [VStr "S1"; VStr "S3"] [VStr "S3"; VStr "S1"; VStr "S9"]
           7 ["Drama 2"; "English 2"; "Food Technology";
              "Health and Physical Education 2"; "Humanities 2";
              "Mathematics 2"; "Media"; "Music 2"; "Programming";
              "Religion and Values 2"; "Robotics 1"; "Science 2"; "Textiles";
              "Visual Arts 2"] "Media").
  - reflexivity.
  - reflexivity.
  - reflexivity.
  - reflexivity.
  - right. left. reflexivity.
  - do 6 right. left. reflexivity.
Defined.

Lemma open_elective_stmt res cg y s :
  In s open_electives ->
  stmt_for s (body res cg y) = Some (SetFlag (mask_or (y8 y) (y9 y)) s).
Proof.
  intros Hs. unfold open_electives in Hs. simpl in Hs.
  repeat (destruct Hs as [<-|Hs]; [find_stmt|]). contradiction.
Qed.

(** X12.  The eight electives whose rule is the bare [y8 | y9] (the
    placeholders among them) are 1 for a roster row exactly when the student
    has a record row at year 8 or 9, whatever the grades and whatever other
    columns the records hold. *)
Theorem open_elective_follows_year_8_or_9 res df cg y stu ids s :
  getitem res "CG" = Some cg ->
  getitem res "Y" = Some y ->
  getitem res "StuID" = Some stu ->
  getitem df "Student ID" = Some ids ->
  In s open_electives ->
  exists flags,
    getitem (fst (apply_prerequisites res df)) s = Some flags /\
    forall i id, nth_error ids i = Some id ->
      (nth_error flags i = Some (VInt 1) <->
       exists j sid yv,
         nth_error stu j = Some sid /\ same_key id sid = true /\
         nth_error y j = Some yv /\
         (py_eq yv (VInt 8) = true \/ py_eq yv (VInt 9) = true)).
Proof.
  intros Hcg Hy Hstu Hids Hs.
  exists (flags_for stu ids (mask_or (y8 y) (y9 y))). split.
  - apply (subject_column res df cg y stu ids s _ Hcg Hy Hstu Hids).
    now apply open_elective_stmt.
  - intros i id Hid. rewrite (flag_is_one stu ids _ i id Hid), member_loc.
    unfold y8, y9. split.
    + intros [j [sid [Hm [Hsid K]]]]. apply either_scalar_true in Hm.
      destruct Hm as [yv [Hyv E]]. exists j, sid, yv. auto.
    + intros [j [sid [yv [Hsid [K [Hyv E]]]]]]. exists j, sid.
      split; [|auto]. apply either_scalar_true. eauto.
Qed.

Lemma open_elective_follows_year_8_or_9_witness :
  exists flags,
    getitem (fst (apply_prerequisites english_records english_roster))
      "Music 3" = Some flags /\
    forall i id,
      nth_error [VStr "S3"; VStr "S1"; VStr "S9"] i = Some id ->
      (nth_error flags i = Some (VInt 1) <->
       exists j sid yv,
         nth_error [VStr "S1"; VStr "S3"] j = Some sid /\
         same_key id sid = true /\
         nth_error [VInt 8; VInt 11] j = Some yv /\
         (py_eq yv (VInt 8) = true \/ py_eq yv (VInt 9) = true)).
Proof.
  apply (open_elective_follows_year_8_or_9 english_records english_roster
           [VStr "B"; VStr "A"] [VInt 8; VInt 11]
           [VStr "S1"; VStr "S3"] [VStr "S3"; VStr "S1"; VStr "S9"]
           "Music 3").
  - reflexivity.
  - reflexivity.
  - reflexivity.
  - reflexivity.
  - do 5 right. left. reflexivity.
Defined.

Lemma same_rule_group_mask res cg y g :
  In g same_rule_groups ->
  exists m, forall s, In s g ->
    stmt_for s (body res cg y) = Some (SetFlag m s).
Proof.
  intros Hg. unfold same_rule_groups in Hg. simpl in Hg.
  repeat (destruct Hg as [<-|Hg];
          [eexists; intros s Hs; simpl in Hs;
           repeat (destruct Hs as [<-|Hs]; [find_stmt|]); contradiction|]).
  contradiction.
Qed.

(** X13.  Subjects written from one and the same rule always agree: within
    each of the five groups (the two year-10 mathematics extensions, the
    three arts, the six humanities, the two physical-education Unit 1-2
    subjects, the two computing Unit 3-4 subjects) all columns are equal. *)
Theorem same_rule_same_flags res df cg y stu ids g a b :
  getitem res "CG" = Some cg ->
  getitem res "Y" = Some y ->
  getitem res "StuID" = Some stu ->
  getitem df "Student ID" = Some ids ->
  In g same_rule_groups -> In a g -> In b g ->
  getitem (fst (apply_prerequisites res df)) a =
  getitem (fst (apply_prerequisites res df)) b.
Proof.
  intros Hcg Hy Hstu Hids Hg Ha Hb.
  destruct (same_rule_group_mask res cg y g Hg) as [m Hm].
  rewrite (subject_column res df cg y stu ids a m Hcg Hy Hstu Hids (Hm a Ha)).
  rewrite (subject_column res df cg y stu ids b m Hcg Hy Hstu Hids (Hm b Hb)).
  reflexivity.
Qed.

Lemma same_rule_same_flags_witness :
  getitem (fst (apply_prerequisites senior_records s1_roster))
    "Economics U12" =
  getitem (fst (apply_prerequisites senior_records s1_roster))
    "Sociology U12".
Proof.
  apply (same_rule_same_flags senior_records s1_roster
           [VStr "N5"; VStr "B"] [VInt 9; VInt 10]
           [VStr "S1"; VStr "S1"] [VStr "S1"]
           ["Economics U12"; "History U12"; "Legal Studies U12";
            "Texts and Traditions U12"; "Politics U12"; "Sociology U12"]).
  - reflexivity.
  - reflexivity.
  - reflexivity.
  - reflexivity.
  - do 2 right. left. reflexivity.
  - left. reflexivity.
  - do 5 right. left. reflexivity.
Defined.

(** ** Masks row by row *)

Lemma length_opt res c : wf res -> List.length (opt res c) = nrows res.
Proof.
  intros W. unfold opt, sget. destruct (getitem res c) as [s|] eqn:E.
  - eapply getitem_length; eauto.
  - apply repeat_length.
Qed.

Lemma length_eq_scalar s c n :
  List.length s = n -> List.length (eq_scalar s c) = n.
Proof. intros <-. apply length_map. Qed.

Lemma length_ne_scalar s c n :
  List.length s = n -> List.length (ne_scalar s c) = n.
Proof. intros <-. apply length_map. Qed.

Lemma length_isin_str s l n :
  List.length s = n -> List.length (isin_str s l) = n.
Proof. intros <-. apply length_map. Qed.

Ltac head_of t :=
  lazymatch t with
  | ?f _ => head_of f
  | _ => t
  end.

(** Every mask of the body is as long as the index of [res], given that the
    columns it is built from are. *)
Ltac align :=
  lazymatch goal with
  | |- List.length (mask_and _ _) = _ => apply length_zip_with; align
  | |- List.length (mask_or _ _) = _ => apply length_zip_with; align
  | |- List.length (eq_scalar _ _) = _ => apply length_eq_scalar; align
  | |- List.length (ne_scalar _ _) = _ => apply length_ne_scalar; align
  | |- List.length (isin_str _ _) = _ => apply length_isin_str; align
  | |- List.length (opt _ _) = _ => apply length_opt; assumption
  | |- List.length ?m = _ =>
      first [ assumption
            | let h := head_of m in unfold h; align ]
  end.

Lemma mask_le_refl m : mask_le m m.
Proof. intros j H. exact H. Qed.

Lemma mask_le_trans a b c : mask_le a b -> mask_le b c -> mask_le a c.
Proof. intros H1 H2 j H. auto. Qed.

Lemma mask_le_and a a' b b' :
  mask_le a a' -> mask_le b b' -> mask_le (mask_and a b) (mask_and a' b').
Proof.
  intros Ha Hb j H. apply mask_and_true in H. apply mask_and_true.
  destruct H. auto.
Qed.

Lemma mask_le_or n a a' b b' :
  List.length a = n -> List.length b = n ->
  List.length a' = n -> List.length b' = n ->
  mask_le a a' -> mask_le b b' -> mask_le (mask_or a b) (mask_or a' b').
Proof.
  intros La Lb La' Lb' Ha Hb j H.
  apply mask_or_true_aligned in H; [|congruence].
  apply mask_or_true_aligned; [congruence|]. destruct H; auto.
Qed.

Lemma mask_le_or_l n a b :
  List.length a = n -> List.length b = n -> mask_le a (mask_or a b).
Proof.
  intros La Lb j H. apply mask_or_true_aligned; [congruence | now left].
Qed.

Lemma mask_le_or_r n a b :
  List.length a = n -> List.length b = n -> mask_le b (mask_or a b).
Proof.
  intros La Lb j H. apply mask_or_true_aligned; [congruence | now right].
Qed.

Lemma mask_le_isin s l l' :
  incl l l' -> mask_le (isin_str s l) (isin_str s l').
Proof.
  intros I j H. unfold isin_str, isin in *. rewrite nth_error_map in *.
  destruct (nth_error s j) as [v|]; [|discriminate]. simpl in *.
  injection H as H. f_equal. apply member_spec in H.
  destruct H as [w [Hw K]]. apply member_spec. exists w. split; [|exact K].
  apply in_map_iff in Hw. destruct Hw as [g [<- Hg]].
  apply in_map. now apply I.
Qed.

Ltac sublist :=
  let g := fresh "g" in
  let H := fresh "H" in
  intros g H; simpl in *; tauto.

Section Ordered.

Variables (res : DataFrame) (CG Y : Series).
Hypothesis W : wf res.
Hypothesis LCG : List.length CG = nrows res.
Hypothesis LY : List.length Y = nrows res.

Lemma research_science_2_le_1 :
  mask_le
    (mask_and (y8 Y)
       (mask_or (isin_str (opt res "SCI2") ["B+"; "A"; "A+"]) (new4 CG)))
    (mask_or
       (mask_and (y8 Y)
          (mask_or (isin_str (opt res "SCI2") ["B+"; "A"; "A+"]) (new4 CG)))
       (mask_and (y9 Y)
          (mask_or (isin_str (opt res "SCI3") ["C+"; "B"; "B+"; "A"; "A+"])
                   (new4 CG)))).
Proof. apply (mask_le_or_l (nrows res)); align. Qed.

Lemma sci_mid10_le_minmid10 : mask_le (sci_mid10 res Y) (sci_minmid10 res Y).
Proof.
  unfold sci_mid10, sci_minmid10.
  apply mask_le_and; [apply mask_le_refl|].
  apply (mask_le_or (nrows res)); try align; apply mask_le_isin; sublist.
Qed.

Lemma chemistry_le_physics :
  mask_le
    (mask_or
       (mask_or (mask_and (y10 Y) (mask_or (sci_mid10 res Y) (new4 CG)))
                (mask_and (early_VCE_high CG Y) (sci_high res CG Y)))
       (mask_and (new5 CG) (mask_or (y9 Y) (y10 Y))))
    (mask_or
       (mask_or (mask_and (y10 Y) (mask_or (sci_minmid10 res Y) (new4 CG)))
                (mask_and (early_VCE_high CG Y) (sci_high res CG Y)))
       (mask_and (new5 CG) (mask_or (y9 Y) (y10 Y)))).
Proof.
  apply (mask_le_or (nrows res)); try align; [|apply mask_le_refl].
  apply (mask_le_or (nrows res)); try align; [|apply mask_le_refl].
  apply mask_le_and; [apply mask_le_refl|].
  apply (mask_le_or (nrows res)); try align;
    [apply sci_mid10_le_minmid10 | apply mask_le_refl].
Qed.

Lemma mat_high10_le_mid10 : mask_le (mat_high10 res Y) (mat_mid10 res Y).
Proof.
  unfold mat_high10, mat_mid10.
  apply mask_le_and; [apply mask_le_refl|].
  apply (mask_le_or (nrows res)); try align.
  - apply mask_le_and; [apply mask_le_isin; sublist | apply mask_le_refl].
  - apply mask_le_isin; sublist.
Qed.

Lemma specialist_le_methods :
  mask_le
    (mask_or (mask_and (y10 Y) (mask_or (mat_high10 res Y) (new4 CG)))
             (mask_and (new5 CG) (y10 Y)))
    (mask_or
       (mask_or (mask_and (y10 Y) (mask_or (mat_mid10 res Y) (new4 CG)))
                (mask_and (early_VCE_high CG Y) (mat_high res CG Y)))
       (mask_and (new5 CG) (mask_or (y9 Y) (y10 Y)))).
Proof.
  apply (mask_le_or (nrows res)); try align.
  - eapply mask_le_trans; [|apply (mask_le_or_l (nrows res)); align].
    apply mask_le_and; [apply mask_le_refl|].
    apply (mask_le_or (nrows res)); try align;
      [apply mat_high10_le_mid10 | apply mask_le_refl].
  - apply mask_le_and; [apply mask_le_refl|].
    apply (mask_le_or_r (nrows res)); align.
Qed.

End Ordered.

Lemma flags_for_le stu ids m m' i :
  mask_le m m' ->
  nth_error (flags_for stu ids m) i = Some (VInt 1) ->
  nth_error (flags_for stu ids m') i = Some (VInt 1).
Proof.
  intros L H. destruct (flag_row _ _ _ _ _ H) as [id Hid].
  apply (flag_is_one stu ids m' i id Hid).
  apply (flag_is_one stu ids m i id Hid) in H.
  apply member_loc in H. destruct H as [j [sid [Hm H]]].
  apply member_loc. exists j, sid. split; [now apply L | exact H].
Qed.

Lemma stricter_than_masks res cg y a b :
  wf res ->
  List.length cg = nrows res -> List.length y = nrows res ->
  In (a, b) stricter_than ->
  exists ma mb,
    stmt_for a (body res cg y) = Some (SetFlag ma a) /\
    stmt_for b (body res cg y) = Some (SetFlag mb b) /\
    mask_le ma mb.
Proof.
  intros W Lcg Ly H. unfold stricter_than in H. simpl in H.
  destruct H as [H|[H|[H|[]]]]; injection H as <- <-;
    eexists; eexists; (split; [find_stmt | split; [find_stmt|]]).
  - now apply research_science_2_le_1.
  - now apply chemistry_le_physics.
  - now apply specialist_le_methods.
Qed.

(** X14.  Where one subject's rule is a narrowing of another's, its flag
    implies the other's: whoever is flagged for 'Research Science 2' is
    flagged for 'Research Science 1', for 'Chemistry U12' also for 'Physics
    U12', for 'Specialist Mathematics U12' also for 'Mathematical Methods
    U12'. *)
Theorem narrower_rule_implies_wider res df cg y stu ids a b :
  wf res ->
  getitem res "CG" = Some cg ->
  getitem res "Y" = Some y ->
  getitem res "StuID" = Some stu ->
  getitem df "Student ID" = Some ids ->
  In (a, b) stricter_than ->
  exists fa fb,
    getitem (fst (apply_prerequisites res df)) a = Some fa /\
    getitem (fst (apply_prerequisites res df)) b = Some fb /\
    forall i, nth_error fa i = Some (VInt 1) -> nth_error fb i = Some (VInt 1).
Proof.
  intros W Hcg Hy Hstu Hids H.
  destruct (stricter_than_masks res cg y a b W
              (getitem_length res _ cg W Hcg) (getitem_length res _ y W Hy) H)
    as [ma [mb [Ha [Hb L]]]].
  exists (flags_for stu ids ma), (flags_for stu ids mb).
  split; [|split].
  - apply (subject_column res df cg y stu ids a ma Hcg Hy Hstu Hids Ha).
  - apply (subject_column res df cg y stu ids b mb Hcg Hy Hstu Hids Hb).
  - intros i. now apply flags_for_le.
Qed.

Lemma narrower_rule_implies_wider_witness :
  exists fa fb,
    getitem (fst (apply_prerequisites senior_records s1_roster))
      "Chemistry U12" = Some fa /\
    getitem (fst (apply_prerequisites senior_records s1_roster))
      "Physics U12" = Some fb /\
    forall i, nth_error fa i = Some (VInt 1) -> nth_error fb i = Some (VInt 1).
Proof.
  apply (narrower_rule_implies_wider senior_records s1_roster
           [VStr "N5"; VStr "B"] [VInt 9; VInt 10]
           [VStr "S1"; VStr "S1"] [VStr "S1"]).
  - split; [apply nodupb_NoDup; reflexivity | repeat constructor].
  - reflexivity.
  - reflexivity.
  - reflexivity.
  - reflexivity.
  - right. left. reflexivity.
Defined.

Lemma and_holds a b j :
  nth_error a j = Some true -> nth_error b j = Some true ->
  nth_error (mask_and a b) j = Some true.
Proof. intros. apply mask_and_true. auto. Qed.

Lemma or_holds_l n a b j :
  nth_error a j = Some true ->
  List.length a = n -> List.length b = n ->
  nth_error (mask_or a b) j = Some true.
Proof.
  intros H La Lb. apply mask_or_true_aligned; [congruence | now left].
Qed.

Lemma or_holds_r n a b j :
  nth_error b j = Some true ->
  List.length a = n -> List.length b = n ->
  nth_error (mask_or a b) j = Some true.
Proof.
  intros H La Lb. apply mask_or_true_aligned; [congruence | now right].
Qed.

(** Row [j] satisfies a mask built with [&] and [|] from masks it is known
    to satisfy. *)
Ltac holds n :=
  match goal with
  | H : nth_error ?m ?j = Some true |- nth_error ?m ?j = Some true => exact H
  | |- nth_error (mask_and _ _) _ = Some true =>
      apply and_holds; holds n
  | |- nth_error (mask_or _ _) _ = Some true =>
      first [ apply (or_holds_l n); [holds n | align | align]
            | apply (or_holds_r n); [holds n | align | align] ]
  | |- nth_error ?m _ = Some true =>
      let h := head_of m in
      lazymatch h with
      | eq_scalar => fail
      | ne_scalar => fail
      | isin_str => fail
      | mask_and => fail
      | mask_or => fail
      | _ => unfold h; holds n
      end
  end.

Lemma n5_year9_masks res cg y s :
  wf res ->
  List.length cg = nrows res -> List.length y = nrows res ->
  In s n5_year9_subjects ->
  exists m,
    stmt_for s (body res cg y) = Some (SetFlag m s) /\
    forall j,
      nth_error (y9 y) j = Some true ->
      nth_error (new5 cg) j = Some true ->
      nth_error (new4 cg) j = Some true ->
      nth_error m j = Some true.
Proof.
  intros W Lcg Ly H. unfold n5_year9_subjects in H. simpl in H.
  repeat (destruct H as [<-|H];
          [eexists; split;
           [find_stmt | intros j H9 H5 H4; holds (nrows res)]|]).
  contradiction.
Qed.

(** X15.  The new-curriculum alternative suffices by itself at year 9: for
    each of the twenty-one subjects listed, a roster row is 1 as soon as the
    student has one record row with year level 9 and composite grade N5,
    whatever the optional columns hold or lack. *)
Theorem year9_n5_record_opens res df cg y stu ids s :
  wf res ->
  getitem res "CG" = Some cg ->
  getitem res "Y" = Some y ->
  getitem res "StuID" = Some stu ->
  getitem df "Student ID" = Some ids ->
  In s n5_year9_subjects ->
  exists flags,
    getitem (fst (apply_prerequisites res df)) s = Some flags /\
    forall i id j sid yv,
      nth_error ids i = Some id ->
      nth_error stu j = Some sid -> same_key id sid = true ->
      nth_error y j = Some yv -> py_eq yv (VInt 9) = true ->
      nth_error cg j = Some (VStr "N5") ->
      nth_error flags i = Some (VInt 1).
Proof.
  intros W Hcg Hy Hstu Hids Hs.
  destruct (n5_year9_masks res cg y s W
              (getitem_length res _ cg W Hcg) (getitem_length res _ y W Hy) Hs)
    as [m [Hm Hj]].
  exists (flags_for stu ids m). split.
  - apply (subject_column res df cg y stu ids s m Hcg Hy Hstu Hids Hm).
  - intros i id j sid yv Hid Hsid K Hyv E Hn5.
    apply (flag_is_one stu ids m i id Hid). apply member_loc.
    exists j, sid. split; [|auto]. apply Hj.
    + apply eq_scalar_true. eauto.
    + unfold new5, isin_str, isin. rewrite nth_error_map, Hn5. reflexivity.
    + unfold new4, isin_str, isin. rewrite nth_error_map, Hn5. reflexivity.
Qed.

Lemma year9_n5_record_opens_witness :
  exists flags,
    getitem (fst (apply_prerequisites senior_records s1_roster))
      "Psychology U12" = Some flags /\
    forall i id j sid yv,
      nth_error [VStr "S1"] i = Some id ->
      nth_error [VStr "S1"; VStr "S1"] j = Some sid ->
      same_key id sid = true ->
      nth_error [VInt 9; VInt 10] j = Some yv -> py_eq yv (VInt 9) = true ->
      nth_error [VStr "N5"; VStr "B"] j = Some (VStr "N5") ->
      nth_error flags i = Some (VInt 1).
Proof.
  apply (year9_n5_record_opens senior_records s1_roster
           [VStr "N5"; VStr "B"] [VInt 9; VInt 10]
           [VStr "S1"; VStr "S1"] [VStr "S1"]).
  - split; [apply nodupb_NoDup; reflexivity | repeat constructor].
  - reflexivity.
  - reflexivity.
  - reflexivity.
  - reflexivity.
  - do 20 right. left. reflexivity.
Defined.

(** ** Gates on a marker column *)

Lemma marker_filled_true res col j :
  nth_error (ne_scalar (opt res col) blank) j = Some true <->
  match getitem res col with
  | Some series =>
      exists v, nth_error series j = Some v /\ py_eq v blank = false
  | None => (j < nrows res)%nat
  end.
Proof.
  rewrite ne_scalar_true. unfold opt, sget.
  destruct (getitem res col) as [series|]; [reflexivity|]. split.
  - intros [v [H _]]. rewrite <- (repeat_length (VBool false) (nrows res)).
    apply nth_error_Some. congruence.
  - intros H. exists (VBool false). split; [|reflexivity].
    now apply nth_error_repeat.
Qed.

Lemma u34_marker_stmt res cg y s col :
  In (s, col) u34_markers ->
  stmt_for s (body res cg y) =
  Some (SetFlag (ne_scalar (opt res col) blank) s).
Proof.
  intros H. unfold u34_markers in H. simpl in H.
  repeat (destruct H as [H|H]; [injection H as <- <-; find_stmt|]).
  contradiction.
Qed.

(** X16.  A Unit 3-4 subject gated on one Unit 1-2 marker column: when the
    records have the column, a roster row is 1 exactly when some record row
    of the student holds anything but the empty string there; when the
    records lack the column, the row is 1 exactly when the student has any
    record row at all. *)
Theorem u34_marker_gate res df cg y stu ids s col :
  getitem res "CG" = Some cg ->
  getitem res "Y" = Some y ->
  getitem res "StuID" = Some stu ->
  getitem df "Student ID" = Some ids ->
  In (s, col) u34_markers ->
  exists flags,
    getitem (fst (apply_prerequisites res df)) s = Some flags /\
    forall i id, nth_error ids i = Some id ->
      (nth_error flags i = Some (VInt 1) <->
       exists j sid,
         nth_error stu j = Some sid /\ same_key id sid = true /\
         match getitem res col with
         | Some series =>
             exists v, nth_error series j = Some v /\ py_eq v blank = false
         | None => (j < nrows res)%nat
         end).
Proof.
  intros Hcg Hy Hstu Hids H.
  exists (flags_for stu ids (ne_scalar (opt res col) blank)). split.
  - apply (subject_column res df cg y stu ids s _ Hcg Hy Hstu Hids).
    now apply u34_marker_stmt.
  - intros i id Hid. rewrite (flag_is_one stu ids _ i id Hid), member_loc.
    split.
    + intros [j [sid [Hm [Hsid K]]]]. apply marker_filled_true in Hm.
      exists j, sid. auto.
    + intros [j [sid [Hsid [K Hm]]]]. exists j, sid.
      split; [|auto]. now apply marker_filled_true.
Qed.

Lemma u34_marker_gate_witness :
  exists flags,
    getitem (fst (apply_prerequisites english_records english_roster))
      "Physics U34" = Some flags /\
    forall i id,
      nth_error [VStr "S3"; VStr "S1"; VStr "S9"] i = Some id ->
      (nth_error flags i = Some (VInt 1) <->
       exists j sid,
         nth_error [VStr "S1"; VStr "S3"] j = Some sid /\
         same_key id sid = true /\
         match getitem english_records "PHYU12" with
         | Some series =>
             exists v, nth_error series j = Some v /\ py_eq v blank = false
         | None => (j < nrows english_records)%nat
         end).
Proof.
  apply (u34_marker_gate english_records english_roster
           [VStr "B"; VStr "A"] [VInt 8; VInt 11]
           [VStr "S1"; VStr "S3"] [VStr "S3"; VStr "S1"; VStr "S9"]
           "Physics U34" "PHYU12").
  - reflexivity.
  - reflexivity.
  - reflexivity.
  - reflexivity.
  - do 13 right. left. reflexivity.
Defined.

Lemma not_yet_taken_true res Y col j :
  nth_error (mask_and (eq_scalar (opt res col) blank)
                      (mask_or (y8 Y) (y9 Y))) j = Some true <->
  exists yv series v,
    nth_error Y j = Some yv /\
    (py_eq yv (VInt 8) = true \/ py_eq yv (VInt 9) = true) /\
    getitem res col = Some series /\
    nth_error series j = Some v /\ py_eq v blank = true.
Proof.
  unfold y8, y9.
  rewrite mask_and_true, eq_scalar_true, either_scalar_true.
  unfold opt, sget. destruct (getitem res col) as [series|]; split.
  - intros [[v [Hv E]] [yv [Hy D]]]. exists yv, series, v. auto.
  - intros [yv [s' [v [Hy [D [Hg [Hv E]]]]]]]. injection Hg as <-.
    split; eauto.
  - intros [[v [Hv E]] _]. apply nth_error_In, repeat_spec in Hv.
    subst v. discriminate.
  - intros [yv [s' [v [_ [_ [Hg _]]]]]]. discriminate.
Qed.

Lemma not_yet_taken_stmt res cg y s col :
  In (s, col) not_yet_taken_gates ->
  stmt_for s (body res cg y) =
  Some (SetFlag (mask_and (eq_scalar (opt res col) blank)
                          (mask_or (y8 y) (y9 y))) s).
Proof.
  intros H. unfold not_yet_taken_gates in H. simpl in H.
  repeat (destruct H as [H|H]; [injection H as <- <-; find_stmt|]).
  contradiction.
Qed.

(** X17.  A year-9 elective gated on not having been taken yet: a roster row
    is 1 exactly when the records have the elective's column and some record
    row of the student is at year 8 or 9 with the empty string in it.  In
    particular the flag is 0 for everyone when the records lack the
    column. *)
Theorem not_yet_taken_gate res df cg y stu ids s col :
  getitem res "CG" = Some cg ->
  getitem res "Y" = Some y ->
  getitem res "StuID" = Some stu ->
  getitem df "Student ID" = Some ids ->
  In (s, col) not_yet_taken_gates ->
  exists flags,
    getitem (fst (apply_prerequisites res df)) s = Some flags /\
    forall i id, nth_error ids i = Some id ->
      (nth_error flags i = Some (VInt 1) <->
       exists j sid yv series v,
         nth_error stu j = Some sid /\ same_key id sid = true /\
         nth_error y j = Some yv /\
         (py_eq yv (VInt 8) = true \/ py_eq yv (VInt 9) = true) /\
         getitem res col = Some series /\
         nth_error series j = Some v /\ py_eq v blank = true).
Proof.
  intros Hcg Hy Hstu Hids H.
  exists (flags_for stu ids
            (mask_and (eq_scalar (opt res col) blank)
                      (mask_or (y8 y) (y9 y)))).
  split.
  - apply (subject_column res df cg y stu ids s _ Hcg Hy Hstu Hids).
    now apply not_yet_taken_stmt.
  - intros i id Hid. rewrite (flag_is_one stu ids _ i id Hid), member_loc.
    split.
    + intros [j [sid [Hm [Hsid K]]]]. apply not_yet_taken_true in Hm.
      destruct Hm as [yv [series [v [Hyv [D [Hg [Hv E]]]]]]].
      exists j, sid, yv, series, v. repeat split; assumption.
    + intros [j [sid [yv [series [v [Hsid [K [Hyv [D [Hg [Hv E]]]]]]]]]]].
      exists j, sid. split; [|split; assumption].
      apply not_yet_taken_true. exists yv, series, v.
      repeat split; assumption.
Qed.

Lemma not_yet_taken_gate_witness :
  exists flags,
    getitem (fst (apply_prerequisites english_records english_roster))
      "Photography" = Some flags /\
    forall i id,
      nth_error [VStr "S3"; VStr "S1"; VStr "S9"] i = Some id ->
      (nth_error flags i = Some (VInt 1) <->
       exists j sid yv series v,
         nth_error [VStr "S1"; VStr "S3"] j = Some sid /\
         same_key id sid = true /\
         nth_error [VInt 8; VInt 11] j = Some yv /\
         (py_eq yv (VInt 8) = true \/ py_eq yv (VInt 9) = true) /\
         getitem english_records "PHO" = Some series /\
         nth_error series j = Some v /\ py_eq v blank = true).
Proof.
  apply (not_yet_taken_gate english_records english_roster
           [VStr "B"; VStr "A"] [VInt 8; VInt 11]
           [VStr "S1"; VStr "S3"] [VStr "S3"; VStr "S1"; VStr "S9"]
           "Photography" "PHO").
  - reflexivity.
  - reflexivity.
  - reflexivity.
  - reflexivity.
  - do 9 right. left. reflexivity.
Defined.

(** X18.  When the records have none of ENGU12, ELANU12 and LITU12, the loop
    of lines 232-236 leaves its mask all false and the three Unit 3-4
    English subjects are 0 in every roster row. *)
Theorem english_u34_without_u12_columns res df cg y stu ids s :
  wf df ->
  getitem res "CG" = Some cg ->
  getitem res "Y" = Some y ->
  getitem res "StuID" = Some stu ->
  getitem df "Student ID" = Some ids ->
  getitem res "ENGU12" = None ->
  getitem res "ELANU12" = None ->
  getitem res "LITU12" = None ->
  In s ["English U34"; "English Language U34"; "Literature U34"] ->
  getitem (fst (apply_prerequisites res df)) s =
  Some (repeat (VInt 0) (nrows df)).
Proof.
  intros W Hcg Hy Hstu Hids H1 H2 H3 Hs.
  assert (E : mask_any_u12_english res = all_false res).
  { unfold mask_any_u12_english, any_present_filled. simpl.
    now rewrite H1, H2, H3. }
  destruct (english_stmts_in_body res cg y) as [I1 [I2 I3]].
  rewrite (apply_ok res df cg y stu ids Hcg Hy Hstu Hids). cbn [fst].
  pose proof (NoDup_targets_body res cg y) as ND.
  assert (F : flags_for stu ids (mask_any_u12_english res) =
              repeat (VInt 0) (nrows df)).
  { rewrite flags_none.
    - now rewrite (getitem_length df _ ids W Hids).
    - rewrite E. apply loc_repeat_false. }
  rewrite <- F.
  destruct Hs as [<-|[<-|[<-|[]]]].
  - apply (getitem_write_all_in stu ids _ _ df ND I1).
  - apply (getitem_write_all_in stu ids _ _ df ND I2).
  - apply (getitem_write_all_in stu ids _ _ df ND I3).
Qed.

Lemma english_u34_without_u12_columns_witness :
  getitem (fst (apply_prerequisites s1_records twice_roster))
    "Literature U34" =
  Some (repeat (VInt 0) (nrows twice_roster)).
Proof.
  apply (english_u34_without_u12_columns s1_records twice_roster
           [VStr "B"] [VInt 6] [VStr "S1"]
           [VStr "S1"; VStr "S7"; VStr "S1"] "Literature U34").
  - split; [apply nodupb_NoDup; reflexivity | repeat constructor].
  - reflexivity.
  - reflexivity.
  - reflexivity.
  - reflexivity.
  - reflexivity.
  - reflexivity.
  - reflexivity.
  - right. right. left. reflexivity.
Defined.
